(** * Log analyzer: a shallow embedding of the configuration-driven pipeline

    The development follows the three Python modules of the repository:
    - [src/config.py]      : [load_config], [ensure_output_dir];
    - [src/visualizer.py]  : the [LogVisualizer] class;
    - [main.py]            : [parse_args], [main].

    Python values are modelled as the code uses them: a [str] is a sequence of
    Unicode code points, a [dict] an insertion-ordered association list with
    unique keys, an exception a value of [exn] carried by the [result] type.
    The collaborators the program only calls (the file system, [json],
    [pathlib], [plotly], [repr]) are the fields of the class [Env]. *)

From Stdlib Require Import List NArith ZArith QArith Bool Ascii String Lia.
Import ListNotations.

Local Open Scope list_scope.
#[local] Set Warnings "-register-all".

(* ===================================================================== *)
(** ** Python strings *)
(* ===================================================================== *)

(** A Python [str]: the sequence of its code points. *)
Definition str : Type := list N.

(** An ASCII literal as a [str]. *)
Definition lit (s : string) : str := map N_of_ascii (list_ascii_of_string s).

Fixpoint str_eqb (a b : str) : bool :=
  match a, b with
  | [], [] => true
  | x :: a', y :: b' => N.eqb x y && str_eqb a' b'
  | _, _ => false
  end.

(** The code point of the placeholder marker, the character ['{']. *)
Definition LBRACE : N := 123.

(** [str.isspace] on one code point: the table of CPython's
    [_PyUnicode_IsWhitespace]. *)
Definition is_space (c : N) : bool :=
  ((9 <=? c) && (c <=? 13) || (28 <=? c) && (c <=? 32)
   || (c =? 133) || (c =? 160) || (c =? 5760)
   || (8192 <=? c) && (c <=? 8202)
   || (c =? 8232) || (c =? 8233) || (c =? 8239) || (c =? 8287)
   || (c =? 12288))%N.

(** [s.split(sep)] for a separator of one character: the pieces between the
    occurrences of [sep], always at least one piece. *)
Fixpoint py_split (sep : N) (s : str) : list str :=
  match s with
  | [] => [[]]
  | c :: r =>
      if N.eqb c sep then [] :: py_split sep r
      else let ps := py_split sep r in (c :: hd [] ps) :: tl ps
  end.

(** [s.lstrip()], [s.rstrip()] and [s.strip()] with no argument. *)
Fixpoint py_lstrip (s : str) : str :=
  match s with
  | [] => []
  | c :: r => if is_space c then py_lstrip r else s
  end.

Definition py_rstrip (s : str) : str := rev (py_lstrip (rev s)).

Definition py_strip (s : str) : str := py_rstrip (py_lstrip s).

(** [sep.join(parts)]. *)
Fixpoint py_join (sep : str) (parts : list str) : str :=
  match parts with
  | [] => []
  | [p] => p
  | p :: rest => p ++ sep ++ py_join sep rest
  end.



(* ===================================================================== *)
(** ** Exceptions and results *)
(* ===================================================================== *)

(** The exceptions that derive from [Exception].  The handler of [main]
    distinguishes [FileNotFoundError] from every other class, so the model
    keeps that class apart; [OtherException] is an exception of any other
    class, with the name of the class and the text [str] gives. *)
Inductive exn : Type :=
| FileNotFoundError (filename : str)
| OtherException (cls : str) (message : str).

Inductive result (A : Type) : Type :=
| Ok (a : A)
| Raise (e : exn).

Arguments Ok {A} a.
Arguments Raise {A} e.

Definition IndexError : exn :=
  OtherException (lit "IndexError") (lit "list index out of range").

Definition rbind {A B} (r : result A) (k : A -> result B) : result B :=
  match r with
  | Ok a => k a
  | Raise e => Raise e
  end.

(** [l[0]]. *)
Definition py_index0 {A} (l : list A) : result A :=
  match l with
  | x :: _ => Ok x
  | [] => Raise IndexError
  end.

(** A list comprehension whose element expression may raise. *)
Fixpoint list_comp {A B} (f : A -> result B) (l : list A) : result (list B) :=
  match l with
  | [] => Ok []
  | x :: r =>
      rbind (f x) (fun y => rbind (list_comp f r) (fun ys => Ok (y :: ys)))
  end.

(* ===================================================================== *)
(** ** Python dictionaries with string keys *)
(* ===================================================================== *)

(** Insertion-ordered; [wf_dict] says the keys are pairwise distinct, which
    every dictionary built by [dict_set] satisfies. *)
Definition dict (V : Type) : Type := list (str * V).

Definition keys {V} (d : dict V) : list str := map fst d.
Definition values {V} (d : dict V) : list V := map snd d.

Definition wf_dict {V} (d : dict V) : Prop := NoDup (keys d).

(** [d[k] = v]: replaces the value in place, or appends a new entry. *)
Fixpoint dict_set {V} (k : str) (v : V) (d : dict V) : dict V :=
  match d with
  | [] => [(k, v)]
  | (k', v') :: r =>
      if str_eqb k k' then (k', v) :: r else (k', v') :: dict_set k v r
  end.

Fixpoint dict_get {V} (k : str) (d : dict V) : option V :=
  match d with
  | [] => None
  | (k', v') :: r => if str_eqb k k' then Some v' else dict_get k r
  end.

(** The dictionary a sequence of (key, value) pairs builds, a later pair
    replacing an earlier one with the same key. *)
Definition dict_of_items {V} (items : list (str * V)) : dict V :=
  fold_left (fun d kv => dict_set (fst kv) (snd kv) d) items [].

(** A dict comprehension [{k: f(v) for k, v in d.items()}] whose value
    expression may raise. *)
Fixpoint dict_comp {V W} (f : V -> result W) (items : list (str * V))
    (acc : dict W) : result (dict W) :=
  match items with
  | [] => Ok acc
  | (k, v) :: r =>
      rbind (f v) (fun w => dict_comp f r (dict_set k w acc))
  end.

(** A message catalog: category name to message templates. *)
Definition catalog : Type := dict (list str).

(* ===================================================================== *)
(** ** [LogVisualizer._preprocess_logs] *)
(* ===================================================================== *)

(** [msg.split('{')[0].strip()]. *)
Definition preprocess_msg (msg : str) : result str :=
  rbind (py_index0 (py_split LBRACE msg)) (fun piece => Ok (py_strip piece)).

Definition _preprocess_logs (logs : catalog) : result catalog :=
  dict_comp (list_comp preprocess_msg) logs [].

(** *** What the specification calls a preprocessed message *)

(** [pre] is the substring of [msg] preceding its first [c], the whole of
    [msg] when [c] does not occur. *)
Definition before_first (c : N) (msg pre : str) : Prop :=
  ~ In c pre /\ (msg = pre \/ exists rest, msg = pre ++ c :: rest).

(** [t] is [s] with the leading and trailing whitespace removed. *)
Definition trimmed (s t : str) : Prop :=
  exists l r,
    s = l ++ t ++ r
    /\ forallb is_space l = true /\ forallb is_space r = true
    /\ (forall c, hd_error t = Some c -> is_space c = false)
    /\ (forall c, hd_error (rev t) = Some c -> is_space c = false).

Definition preprocessed (msg out : str) : Prop :=
  exists pre, before_first LBRACE msg pre /\ trimmed pre out.

(** [m] is the preprocessed form of some message. *)
Definition clean (m : str) : Prop := exists msg, preprocessed msg m.

(* ===================================================================== *)
(** ** JSON documents and the configuration records ([src/config.py]) *)
(* ===================================================================== *)

(** What [json.load] returns.  A [JObj] lists the members in document
    order; the Python dictionary is [dict_of_items] of them (a repeated
    name keeps its last value). *)
Inductive json : Type :=
| JNull
| JBool (b : bool)
| JNum (literal : str)
| JStr (s : str)
| JArr (items : list json)
| JObj (members : list (str * json)).

(** The dataclasses as Python builds them: no field is type-checked, each
    holds whatever the document had. *)
Record RawVisualizationConfig : Type := {
  raw_colors : json;
  raw_titles : json;
  raw_labels : json
}.

Record RawOutputConfig : Type := {
  raw_save_plots : json;
  raw_output_dir : json;
  raw_formats : json
}.

Record RawConfig : Type := {
  raw_log_patterns_file : json;
  raw_visualization : RawVisualizationConfig;
  raw_output : RawOutputConfig;
  raw_error_logs : json;
  raw_warning_logs : json
}.

(** The dataclasses with the types their annotations declare. *)
Record VisualizationConfig : Type := {
  colors : dict str;
  titles : dict str;
  labels : dict str
}.

Record OutputConfig : Type := {
  save_plots : bool;
  output_dir : str;
  formats : list str
}.

Record Config : Type := {
  log_patterns_file : str;
  visualization : VisualizationConfig;
  output : OutputConfig;
  error_logs : option catalog;
  warning_logs : option catalog
}.

(** Reading a JSON value at an annotated type. *)
Definition as_str (j : json) : option str :=
  match j with JStr s => Some s | _ => None end.

Definition as_bool (j : json) : option bool :=
  match j with JBool b => Some b | _ => None end.

Fixpoint all_some {A} (l : list (option A)) : option (list A) :=
  match l with
  | [] => Some []
  | Some x :: r => option_map (cons x) (all_some r)
  | None :: _ => None
  end.

Definition as_str_list (j : json) : option (list str) :=
  match j with JArr items => all_some (map as_str items) | _ => None end.

Definition as_dict_of {V} (f : json -> option V) (j : json) : option (dict V) :=
  match j with
  | JObj members =>
      all_some
        (map (fun kv => option_map (pair (fst kv)) (f (snd kv)))
             (dict_of_items members))
  | _ => None
  end.

Definition as_str_dict : json -> option (dict str) := as_dict_of as_str.

(** [Optional[Dict[str, List[str]]]]: [null] is [None]. *)
Definition as_opt_catalog (j : json) : option (option catalog) :=
  match j with
  | JNull => Some None
  | _ => option_map Some (as_dict_of as_str_list j)
  end.

Definition obind {A B} (o : option A) (k : A -> option B) : option B :=
  match o with Some a => k a | None => None end.

(** The configuration at its annotated types, when every field has one. *)
Definition annotated (raw : RawConfig) : option Config :=
  obind (as_str (raw_log_patterns_file raw)) (fun lpf =>
  obind (as_str_dict (raw_colors (raw_visualization raw))) (fun cs =>
  obind (as_str_dict (raw_titles (raw_visualization raw))) (fun ts =>
  obind (as_str_dict (raw_labels (raw_visualization raw))) (fun ls =>
  obind (as_bool (raw_save_plots (raw_output raw))) (fun sp =>
  obind (as_str (raw_output_dir (raw_output raw))) (fun od =>
  obind (as_str_list (raw_formats (raw_output raw))) (fun fs =>
  obind (as_opt_catalog (raw_error_logs raw)) (fun el =>
  obind (as_opt_catalog (raw_warning_logs raw)) (fun wl =>
  Some {| log_patterns_file := lpf;
          visualization := {| colors := cs; titles := ts; labels := ls |};
          output := {| save_plots := sp; output_dir := od; formats := fs |};
          error_logs := el;
          warning_logs := wl |}))))))))).

(* ===================================================================== *)
(** ** Data frames and figures (what the program hands to plotly) *)
(* ===================================================================== *)

(** One row of the detailed-analysis table. *)
Record Row : Type := {
  Category : str;
  Count : nat;
  Severity : str
}.

(** [pd.DataFrame(list of row dicts)] has the rows' keys as columns (none
    for an empty list); [pd.DataFrame({'Message': messages})] has one. *)
Inductive DataFrame : Type :=
| RowsFrame (columns : list str) (rows : list Row)
| MessageFrame (messages : list str).

Definition DataFrame_of_rows (data : list Row) : DataFrame :=
  match data with
  | [] => RowsFrame [] []
  | _ => RowsFrame [lit "Category"; lit "Count"; lit "Severity"] data
  end.

Definition frame_rows (df : DataFrame) : list Row :=
  match df with RowsFrame _ rows => rows | MessageFrame _ => [] end.

Inductive path_item : Type :=
| PxConstant (label : str)
| PxColumn (name : str).

Inductive chart : Type :=
| Pie (pie_labels : list str) (pie_values : list nat) (hole : Q)
| Bar (x : list str) (y : list nat) (text : list nat) (textposition : str)
| Treemap (df : DataFrame) (path : list path_item) (values_col : str)
    (color : str) (color_discrete_map : dict str)
| Histogram (df : DataFrame) (x_col : str) (color_discrete_sequence : list str).

Record Annotation : Type := {
  ann_text : str;
  ann_x : Q;
  ann_y : Q;
  ann_font_size : Z;
  ann_showarrow : bool
}.

Record Layout : Type := {
  title : option str;
  annotations : option (list Annotation);
  xaxis_title : option str;
  yaxis_title : option str;
  template : option str
}.

Record Figure : Type := {
  fig_chart : chart;
  fig_layout : Layout
}.

Definition empty_layout : Layout :=
  {| title := None; annotations := None;
     xaxis_title := None; yaxis_title := None; template := None |}.

Definition new_figure (c : chart) : Figure :=
  {| fig_chart := c; fig_layout := empty_layout |}.

Definition or_old {A} (new old : option A) : option A :=
  match new with Some _ => new | None => old end.

(** [fig.update_layout] with keyword arguments: the given properties
    replace the old ones. *)
Definition update_layout (fig : Figure) (kw : Layout) : Figure :=
  let old := fig_layout fig in
  {| fig_chart := fig_chart fig;
     fig_layout :=
       {| title := or_old (title kw) (title old);
          annotations := or_old (annotations kw) (annotations old);
          xaxis_title := or_old (xaxis_title kw) (xaxis_title old);
          yaxis_title := or_old (yaxis_title kw) (yaxis_title old);
          template := or_old (template kw) (template old) |} |}.

(* ===================================================================== *)
(** ** The pure part of [LogVisualizer] *)
(* ===================================================================== *)

Record LogVisualizer : Type := {
  config : Config;
  processed_error_logs : catalog;
  processed_warning_logs : catalog
}.

(** [{category: len(messages) for category, messages in logs.items()}]. *)
Definition category_counts (logs : catalog) : dict nat :=
  dict_of_items (map (fun kv => (fst kv, List.length (snd kv))) logs).

(** [sum(iterable)]: a left fold from [0]. *)
Definition py_sum (l : list nat) : nat := fold_left Nat.add l 0%nat.

(** [sum(len(msgs) for msgs in logs.values())]. *)
Definition severity_total (logs : catalog) : nat :=
  py_sum (map (@List.length str) (values logs)).

(** One [for] loop of [_prepare_detailed_analysis_data]: a row appended per
    item of the catalog. *)
Definition append_rows (severity : str) (logs : catalog) (data : list Row)
  : list Row :=
  fold_left
    (fun data kv =>
       data ++ [{| Category := fst kv;
                   Count := List.length (snd kv);
                   Severity := severity |}])
    logs data.

Definition _prepare_detailed_analysis_data (self : LogVisualizer) : DataFrame :=
  let data := [] in
  let data := append_rows (lit "ERROR") (processed_error_logs self) data in
  let data := append_rows (lit "WARNING") (processed_warning_logs self) data in
  DataFrame_of_rows data.

(** *** What the specification asks of the counts a chart shows *)

(** The row the table has for one item of a catalog. *)
Definition row_of (severity : str) (kv : str * list str) : Row :=
  {| Category := fst kv; Count := List.length (snd kv); Severity := severity |}.

(** [logs] has an entry for [category], and [count] is the number of its
    messages. *)
Definition counted_in (logs : catalog) (category : str) (count : nat) : Prop :=
  exists messages,
    dict_get category logs = Some messages /\ count = List.length messages.

(** The categories of an optional catalog of the configuration. *)
Definition categories (logs : option catalog) : list str :=
  match logs with Some d => keys d | None => [] end.

(** [messages = []; for msgs in logs.values(): messages.extend(msgs)]. *)
Definition all_messages (logs : catalog) : list str :=
  fold_left (fun messages msgs => messages ++ msgs) (values logs) [].

(* ===================================================================== *)
(** ** Effects: the program state and its monad *)
(* ===================================================================== *)

(** The contents of a file. *)
Definition bytes : Type := list Byte.byte.

(** What a run does that can be observed from outside. *)
Inductive event : Type :=
| Printed (line : str)
| Written (path : str) (content : bytes)
| Shown (fig : Figure).

(** The state a run threads: the world outside the process (of type [W])
    and the events so far, oldest first. *)
Record State (W : Type) : Type := {
  world : W;
  trace : list event
}.

Arguments world {W} s.
Arguments trace {W} s.

(** A computation that returns or raises, and leaves a state either way. *)
Definition M (W A : Type) : Type := State W -> result A * State W.

Definition ret {W A} (a : A) : M W A := fun st => (Ok a, st).

Definition raise {W A} (e : exn) : M W A := fun st => (Raise e, st).

Definition bind {W A B} (c : M W A) (k : A -> M W B) : M W B :=
  fun st =>
    match c st with
    | (Ok a, st') => k a st'
    | (Raise e, st') => (Raise e, st')
    end.

Definition lift {W A} (r : result A) : M W A := fun st => (r, st).

Declare Scope py_scope.
Delimit Scope py_scope with py.
Notation "x <- c ;; k" := (bind c (fun x => k))
  (at level 61, c at next level, right associativity) : py_scope.
Notation "x <~ r ;; k" := (rbind r (fun x => k))
  (at level 61, r at next level, right associativity) : py_scope.
Notation "c ;; k" := (bind c (fun _ => k))
  (at level 61, right associativity) : py_scope.

Local Open Scope py_scope.

(** A [for] loop over a list, stopped by the first exception. *)
Fixpoint for_each {W A} (l : list A) (body : A -> M W unit) : M W unit :=
  match l with
  | [] => ret tt
  | a :: r => body a ;; for_each r body
  end.

Definition emit {W} (ev : event) : M W unit :=
  fun st => (Ok tt, {| world := world st; trace := trace st ++ [ev] |}).

(** [print(line)]. *)
Definition print {W} (line : str) : M W unit := emit (Printed line).

Definition start {W} (w : W) : State W := {| world := w; trace := [] |}.

(** Readings of a trace. *)
Definition printed_lines (t : list event) : list str :=
  flat_map (fun ev => match ev with Printed l => [l] | _ => [] end) t.

Definition written_files (t : list event) : list (str * bytes) :=
  flat_map (fun ev => match ev with Written p c => [(p, c)] | _ => [] end) t.

Definition shown_figures (t : list event) : list Figure :=
  flat_map (fun ev => match ev with Shown f => [f] | _ => [] end) t.

(* ===================================================================== *)
(** ** The environment the program runs in *)
(* ===================================================================== *)

(** The library calls of the program, none of which the repository
    implements.  Each call that touches the world may raise; what it does is
    left to the environment, so a theorem holds whatever the file system,
    the JSON parser or plotly do. *)
Class Env : Type := {
  World : Type;
  (** [pathlib.Path]: [Path(s)], [p.parent], [p / s], [str(p)],
      [p.exists()] and [p.mkdir(parents=True)] *)
  Path : Type;
  mk_path : str -> Path;
  path_parent : Path -> Path;
  path_join : Path -> str -> Path;
  path_str : Path -> str;
  path_exists : World -> Path -> bool;
  path_mkdir : World -> Path -> result World;
  (** [with open(file, 'r', encoding='utf-8') as f: json.load(f)] *)
  json_load_file : World -> json -> result json;
  (** [repr] of a [str], and the text of the [TypeError] an operation
      (named by the first argument) raises on a value it does not accept *)
  py_repr : str -> str;
  type_error_text : str -> json -> str;
  (** the exception plotly raises, if any, when it is given a figure to
      build or update *)
  plotly_validate : Figure -> option exn;
  (** the file [fig.write_html] and [fig.write_image] produce for a figure
      (an output format that is a function of the figure), and the write *)
  to_html : Figure -> bytes;
  to_image : Figure -> bytes;
  write_file : World -> str -> bytes -> result World;
  (** [fig.show()] *)
  fig_show : World -> Figure -> result World;
  (** the rest of [main]'s [try] block on a configuration some field of
      which does not have its annotated type: Python goes on with the value
      as it is, which this development does not follow *)
  untyped_pipeline : RawConfig -> M World unit
}.

Section Program.

Context {env : Env}.

Definition KeyError (key : str) : exn :=
  OtherException (lit "KeyError") (py_repr key).

Definition TypeError (operation : str) (v : json) : exn :=
  OtherException (lit "TypeError") (type_error_text operation v).

Definition AttributeError_NoneType (attribute : str) : exn :=
  OtherException (lit "AttributeError")
    (lit "'NoneType' object has no attribute '" ++ attribute ++ lit "'").

(** [str(e)]; for the [OSError] family it is the errno, its text and the
    [repr] of the file name. *)
Definition str_of_exn (e : exn) : str :=
  match e with
  | FileNotFoundError filename =>
      lit "[Errno 2] No such file or directory: " ++ py_repr filename
  | OtherException _ message => message
  end.

(** [obj[key]] on a JSON value. *)
Definition py_getitem (obj : json) (key : str) : result json :=
  match obj with
  | JObj members =>
      match dict_get key (dict_of_items members) with
      | Some v => Ok v
      | None => Raise (KeyError key)
      end
  | _ => Raise (TypeError (lit "getitem") obj)
  end.

(** [d[key]] on a dictionary of the typed configuration. *)
Definition dict_getitem {V} (d : dict V) (key : str) : result V :=
  match dict_get key d with
  | Some v => Ok v
  | None => Raise (KeyError key)
  end.

(** The keyword arguments of [VisualizationConfig] and [OutputConfig]
    spread from a mapping: exactly the three field names, or [TypeError]. *)
Definition three_fields (cls : str) (f1 f2 f3 : str) (v : json)
  : result (json * json * json) :=
  match v with
  | JObj members =>
      let d := dict_of_items members in
      match dict_get f1 d, dict_get f2 d, dict_get f3 d with
      | Some a, Some b, Some c =>
          if Nat.eqb (List.length d) 3 then Ok (a, b, c)
          else Raise (TypeError cls v)
      | _, _, _ => Raise (TypeError cls v)
      end
  | _ => Raise (TypeError cls v)
  end.

Definition new_VisualizationConfig (v : json) : result RawVisualizationConfig :=
  rbind (three_fields (lit "VisualizationConfig")
           (lit "colors") (lit "titles") (lit "labels") v)
    (fun '(c, t, l) =>
       Ok {| raw_colors := c; raw_titles := t; raw_labels := l |}).

Definition new_OutputConfig (v : json) : result RawOutputConfig :=
  rbind (three_fields (lit "OutputConfig")
           (lit "save_plots") (lit "output_dir") (lit "formats") v)
    (fun '(s, d, f) =>
       Ok {| raw_save_plots := s; raw_output_dir := d; raw_formats := f |}).

(** *** World operations in the monad *)

Definition exists_ (p : Path) : M World bool :=
  fun st => (Ok (path_exists (world st) p), st).

Definition on_world (f : World -> result World) : M World unit :=
  fun st =>
    match f (world st) with
    | Ok w' => (Ok tt, {| world := w'; trace := trace st |})
    | Raise e => (Raise e, st)
    end.

Definition mkdir (p : Path) : M World unit :=
  on_world (fun w => path_mkdir w p).

Definition load_json (file : json) : M World json :=
  fun st => (json_load_file (world st) file, st).

(** Building or updating a figure touches nothing outside the process: it
    returns the figure or raises what plotly raises. *)
Definition validated (fig : Figure) : result Figure :=
  match plotly_validate fig with
  | Some e => Raise e
  | None => Ok fig
  end.

Definition write_to (file : str) (content : bytes) : M World unit :=
  on_world (fun w => write_file w file content) ;; emit (Written file content).

Definition write_html (fig : Figure) (file : str) : M World unit :=
  write_to file (to_html fig).

Definition write_image (fig : Figure) (file : str) : M World unit :=
  write_to file (to_image fig).

Definition show (fig : Figure) : M World unit :=
  on_world (fun w => fig_show w fig) ;; emit (Shown fig).

(** *** [src/config.py] *)

Definition load_config (config_path : str) : M World RawConfig :=
  let config_dir := path_parent (mk_path config_path) in
  dir_exists <- exists_ config_dir ;;
  (if negb dir_exists then mkdir config_dir else ret tt) ;;
  config_data <- load_json (JStr config_path) ;;
  log_patterns_path <- lift (py_getitem config_data (lit "log_patterns_file")) ;;
  log_patterns <- load_json log_patterns_path ;;
  vis_data <- lift (py_getitem config_data (lit "visualization")) ;;
  vis <- lift (new_VisualizationConfig vis_data) ;;
  out_data <- lift (py_getitem config_data (lit "output")) ;;
  out <- lift (new_OutputConfig out_data) ;;
  errors <- lift (py_getitem log_patterns (lit "error_logs")) ;;
  warnings <- lift (py_getitem log_patterns (lit "warning_logs")) ;;
  ret {| raw_log_patterns_file := log_patterns_path;
         raw_visualization := vis;
         raw_output := out;
         raw_error_logs := errors;
         raw_warning_logs := warnings |}.

Definition ensure_output_dir (config : Config) : M World unit :=
  let out_dir := mk_path (output_dir (output config)) in
  dir_exists <- exists_ out_dir ;;
  if negb dir_exists then mkdir out_dir else ret tt.

(** *** [src/visualizer.py] *)

(** [logs.items()] on the optional catalog of the configuration. *)
Definition catalog_items (logs : option catalog) : result catalog :=
  match logs with
  | Some d => Ok d
  | None => Raise (AttributeError_NoneType (lit "items"))
  end.

(** [LogVisualizer.__init__]. *)
Definition LogVisualizer_init (config : Config) : result LogVisualizer :=
  rbind (rbind (catalog_items (error_logs config)) _preprocess_logs) (fun errors =>
  rbind (rbind (catalog_items (warning_logs config)) _preprocess_logs) (fun warnings =>
  Ok {| config := config;
        processed_error_logs := errors;
        processed_warning_logs := warnings |})).

Definition _save_figure (self : LogVisualizer) (fig : Figure) (name : str)
  : M World unit :=
  if save_plots (output (config self)) then
    for_each (formats (output (config self))) (fun fmt =>
      let output_path :=
        path_join (mk_path (output_dir (output (config self))))
                  (name ++ lit "." ++ fmt) in
      if str_eqb fmt (lit "html") then write_html fig (path_str output_path)
      else if str_eqb fmt (lit "png") then write_image fig (path_str output_path)
      else ret tt)
  else ret tt.

Definition vis_title (self : LogVisualizer) (key : string) : result str :=
  dict_getitem (titles (visualization (config self))) (lit key).

Definition vis_label (self : LogVisualizer) (key : string) : result str :=
  dict_getitem (labels (visualization (config self))) (lit key).

Definition vis_color (self : LogVisualizer) (key : string) : result str :=
  dict_getitem (colors (visualization (config self))) (lit key).

(** Each chart method builds its figure, sets the layout, saves and shows.
    The figure is built without touching the world, so the model gives it
    as a [result] of its own and the method as the three steps. *)

(** The pie chart of [create_error_distribution], before its layout. *)
Definition error_distribution_chart (self : LogVisualizer) : chart :=
  let error_counts := category_counts (processed_error_logs self) in
  Pie (keys error_counts) (values error_counts) (3 # 10).

Definition error_distribution_figure (self : LogVisualizer) : result Figure :=
  fig <~ validated (new_figure (error_distribution_chart self)) ;;
  t <~ vis_title self "error_distribution" ;;
  validated (update_layout fig
    {| title := Some t;
       annotations := Some [{| ann_text := lit "Errors";
                               ann_x := 1 # 2; ann_y := 1 # 2;
                               ann_font_size := 20;
                               ann_showarrow := false |}];
       xaxis_title := None; yaxis_title := None; template := None |}).

Definition create_error_distribution (self : LogVisualizer) : M World unit :=
  fig <- lift (error_distribution_figure self) ;;
  _save_figure self fig (lit "error_distribution") ;;
  show fig.

Definition severity_comparison_chart (self : LogVisualizer) : chart :=
  let error_total := severity_total (processed_error_logs self) in
  let warning_total := severity_total (processed_warning_logs self) in
  Bar [lit "ERROR"; lit "WARNING"]
      [error_total; warning_total] [error_total; warning_total] (lit "auto").

Definition severity_comparison_figure (self : LogVisualizer) : result Figure :=
  fig <~ validated (new_figure (severity_comparison_chart self)) ;;
  t <~ vis_title self "severity_comparison" ;;
  xl <~ vis_label self "severity" ;;
  yl <~ vis_label self "message_count" ;;
  validated (update_layout fig
    {| title := Some t; annotations := None;
       xaxis_title := Some xl; yaxis_title := Some yl;
       template := Some (lit "plotly_white") |}).

Definition create_severity_comparison (self : LogVisualizer) : M World unit :=
  fig <- lift (severity_comparison_figure self) ;;
  _save_figure self fig (lit "severity_comparison") ;;
  show fig.

Definition detailed_analysis_figure (self : LogVisualizer) : result Figure :=
  let df := _prepare_detailed_analysis_data self in
  ce <~ vis_color self "error" ;;
  cw <~ vis_color self "warning" ;;
  fig <~ validated (new_figure
           (Treemap df
              [PxConstant (lit "All Messages");
               PxColumn (lit "Severity"); PxColumn (lit "Category")]
              (lit "Count") (lit "Severity")
              (dict_of_items [(lit "ERROR", ce); (lit "WARNING", cw)]))) ;;
  t <~ vis_title self "detailed_analysis" ;;
  validated (update_layout fig
    {| title := Some t; annotations := None;
       xaxis_title := None; yaxis_title := None; template := None |}).

Definition create_detailed_analysis (self : LogVisualizer) : M World unit :=
  fig <- lift (detailed_analysis_figure self) ;;
  _save_figure self fig (lit "detailed_analysis") ;;
  show fig.

Definition error_histogram_figure (self : LogVisualizer) : result Figure :=
  let messages := all_messages (processed_error_logs self) in
  let df := MessageFrame messages in
  c <~ vis_color self "error" ;;
  fig <~ validated (new_figure (Histogram df (lit "Message") [c])) ;;
  t <~ vis_title self "error_histogram" ;;
  xl <~ vis_label self "error_message" ;;
  yl <~ vis_label self "frequency" ;;
  validated (update_layout fig
    {| title := Some t; annotations := None;
       xaxis_title := Some xl; yaxis_title := Some yl; template := None |}).

Definition create_error_histogram (self : LogVisualizer) : M World unit :=
  fig <- lift (error_histogram_figure self) ;;
  _save_figure self fig (lit "error_histogram") ;;
  show fig.

Definition warning_histogram_figure (self : LogVisualizer) : result Figure :=
  let messages := all_messages (processed_warning_logs self) in
  let df := MessageFrame messages in
  c <~ vis_color self "warning" ;;
  fig <~ validated (new_figure (Histogram df (lit "Message") [c])) ;;
  t <~ vis_title self "warning_histogram" ;;
  xl <~ vis_label self "warning_message" ;;
  yl <~ vis_label self "frequency" ;;
  validated (update_layout fig
    {| title := Some t; annotations := None;
       xaxis_title := Some xl; yaxis_title := Some yl; template := None |}).

Definition create_warning_histogram (self : LogVisualizer) : M World unit :=
  fig <- lift (warning_histogram_figure self) ;;
  _save_figure self fig (lit "warning_histogram") ;;
  show fig.

(** The five chart methods with the fixed name each saves under and the
    figure each builds, in the order [main] calls them. *)
Definition chart_names : list str :=
  [lit "error_distribution"; lit "severity_comparison";
   lit "detailed_analysis"; lit "error_histogram"; lit "warning_histogram"].

Definition chart_operations : list (LogVisualizer -> M World unit) :=
  [create_error_distribution; create_severity_comparison;
   create_detailed_analysis; create_error_histogram;
   create_warning_histogram].

Definition chart_figures (self : LogVisualizer) : list (result Figure) :=
  [error_distribution_figure self; severity_comparison_figure self;
   detailed_analysis_figure self; error_histogram_figure self;
   warning_histogram_figure self].

(** *** What the specification says of saving *)

(** The file of a chart in one format: the configured directory joined
    with the chart's name, a dot and the format. *)
Definition output_file (config : Config) (name fmt : str) : str :=
  path_str (path_join (mk_path (output_dir (output config)))
                      (name ++ lit "." ++ fmt)).

(** One file per configured format that is [html] or [png], none when
    [save_plots] is off. *)
Definition saved_files (config : Config) (fig : Figure) (name : str)
  : list (str * bytes) :=
  if save_plots (output config) then
    flat_map (fun fmt =>
                if str_eqb fmt (lit "html")
                then [(output_file config name fmt, to_html fig)]
                else if str_eqb fmt (lit "png")
                then [(output_file config name fmt, to_image fig)]
                else [])
             (formats (output config))
  else [].

(** The events of one chart method that returns: its files, then the
    figure shown. *)
Definition chart_events (config : Config) (fig : Figure) (name : str)
  : list event :=
  map (fun pc => Written (fst pc) (snd pc)) (saved_files config fig name)
  ++ [Shown fig].

(** Some configured format makes [_save_figure] write a file. *)
Definition requests_file (fmts : list str) : bool :=
  existsb (fun fmt => str_eqb fmt (lit "html") || str_eqb fmt (lit "png")) fmts.



(** A computation that adds no event to the trace. *)
Definition silent {A} (c : M World A) : Prop :=
  forall st r st', c st = (r, st') -> trace st' = trace st.

(** The directory check of [load_config] passes from [w] and leaves [w']:
    the parent of the path exists, or is created. *)
Definition config_dir_ready (w : World) (config_path : str) (w' : World)
  : Prop :=
  let config_dir := path_parent (mk_path config_path) in
  (path_exists w config_dir = true /\ w' = w)
  \/ (path_exists w config_dir = false /\ path_mkdir w config_dir = Ok w').


(** *** [main.py] *)

(** The value of [--config]: the flag's argument, or its default. *)
Definition parse_args (flag : option str) : str :=
  match flag with
  | Some config_path => config_path
  | None => lit "config/config.json"
  end.

(** The five chart calls of [main], in its order. *)
Definition create_all (visualizer : LogVisualizer) : M World unit :=
  create_error_distribution visualizer ;;
  create_severity_comparison visualizer ;;
  create_detailed_analysis visualizer ;;
  create_error_histogram visualizer ;;
  create_warning_histogram visualizer.

Definition NL : str := [10%N].

Definition report (config : Config) : M World unit :=
  print (NL ++ lit "Analysis completed successfully!") ;;
  (if save_plots (output config) then
     print (NL ++ lit "Graphs have been saved in: " ++ output_dir (output config)) ;;
     print (lit "Generated formats: "
              ++ py_join (lit ", ") (formats (output config)))
   else ret tt) ;;
  print (NL ++ lit "Generated visualizations:") ;;
  print (lit "1. Error distribution by category") ;;
  print (lit "2. Message comparison by severity level") ;;
  print (lit "3. Detailed analysis by category and severity") ;;
  print (lit "4. Error message frequency histogram") ;;
  print (lit "5. Warning message frequency histogram").

(** What [report] prints. *)
Definition report_lines (config : Config) : list str :=
  [NL ++ lit "Analysis completed successfully!"]
  ++ (if save_plots (output config) then
        [NL ++ lit "Graphs have been saved in: " ++ output_dir (output config);
         lit "Generated formats: "
           ++ py_join (lit ", ") (formats (output config))]
      else [])
  ++ [NL ++ lit "Generated visualizations:";
      lit "1. Error distribution by category";
      lit "2. Message comparison by severity level";
      lit "3. Detailed analysis by category and severity";
      lit "4. Error message frequency histogram";
      lit "5. Warning message frequency histogram"].

(** The events of the five chart methods when each returns, [figs] being
    their figures in order. *)
Definition all_chart_events (config : Config) (figs : list Figure)
  : list event :=
  List.concat (map (fun fn => chart_events config (fst fn) (snd fn))
              (combine figs chart_names)).

(** The [try] block after [load_config], on a configuration whose fields
    have their annotated types. *)
Definition pipeline (config : Config) : M World unit :=
  ensure_output_dir config ;;
  visualizer <- lift (LogVisualizer_init config) ;;
  print (lit "Generating visualizations...") ;;
  create_all visualizer ;;
  report config.

(** The [try] block of [main]. *)
Definition main_try (config_path : str) : M World unit :=
  raw <- load_config config_path ;;
  match annotated raw with
  | Some config => pipeline config
  | None => untyped_pipeline raw
  end.

(** The line an [except] clause of [main] prints. *)
Definition handler_line (e : exn) : str :=
  match e with
  | FileNotFoundError _ =>
      lit "Error: Configuration file not found: " ++ str_of_exn e
  | OtherException _ _ =>
      lit "Unexpected error: " ++ str_of_exn e
  end.

(** [main()]: the exit code and the final state, from the world the process
    starts in. *)
Definition main (flag : option str) (w : World) : Z * State World :=
  let config_path := parse_args flag in
  match main_try config_path (start w) with
  | (Ok _, st) => (0%Z, st)
  | (Raise e, st) => (1%Z, snd (print (handler_line e) st))
  end.

End Program.

(* ===================================================================== *)
(** ** A small concrete environment, for running the model *)
(* ===================================================================== *)

Module Sample.

(** The parent of a path written with ['/']: what precedes the last ['/'],
    or ["."] when there is none. *)
Fixpoint drop_last_component (rev_path : str) : str :=
  match rev_path with
  | [] => []
  | c :: r => if N.eqb c 47 then r else drop_last_component r
  end.

Definition parent_of (p : str) : str :=
  if existsb (N.eqb 47) p then rev (drop_last_component (rev p)) else lit ".".

Definition quoted (s : str) : str := lit "'" ++ s ++ lit "'".

Definition PermissionError (file : str) : exn :=
  OtherException (lit "PermissionError")
    (lit "[Errno 13] Permission denied: " ++ quoted file).

Definition encode (s : str) : bytes :=
  map (fun c => match Byte.of_N c with Some b => b | None => Byte.x3f end) s.

(** A stand-in for the document plotly writes: the figure's title. *)
Definition render (fig : Figure) : bytes :=
  match title (fig_layout fig) with
  | Some t => encode t
  | None => []
  end.

(** The world is the list of files written so far.  [docs] are the JSON
    files that exist, [dirs_exist] answers every [exists], [mkdir_ok] and
    [writable] say whether creating a directory and writing a file work. *)
Definition sample_env (docs : dict json) (dirs_exist mkdir_ok writable : bool)
  : Env :=
  {| World := list (str * bytes);
     Path := str;
     mk_path := fun s => s;
     path_parent := parent_of;
     path_join := fun d f => d ++ lit "/" ++ f;
     path_str := fun p => p;
     path_exists := fun _ _ => dirs_exist;
     path_mkdir := fun w p =>
       if mkdir_ok then Ok w else Raise (PermissionError p);
     json_load_file := fun _ file =>
       match file with
       | JStr p =>
           match dict_get p docs with
           | Some j => Ok j
           | None => Raise (FileNotFoundError p)
           end
       | _ => Raise (OtherException (lit "TypeError") (lit "invalid file"))
       end;
     py_repr := quoted;
     type_error_text := fun operation _ => lit "bad argument for " ++ operation;
     plotly_validate := fun _ => None;
     to_html := render;
     to_image := render;
     write_file := fun w p content =>
       if writable then Ok (w ++ [(p, content)]) else Raise (PermissionError p);
     fig_show := fun w _ => Ok w;
     untyped_pipeline := fun _ =>
       raise (OtherException (lit "TypeError") (lit "ill-typed configuration"))
  |}.

Definition jstr (s : string) : json := JStr (lit s).

Definition jdict (l : list (string * string)) : json :=
  JObj (map (fun kv => (lit (fst kv), jstr (snd kv))) l).

Definition colors_doc : json :=
  jdict [("error", "#ff6b6b"); ("warning", "#ffd93d")]%string.

Definition titles_doc : json :=
  jdict [("error_distribution", "Errors by category");
         ("severity_comparison", "Messages by severity");
         ("detailed_analysis", "Detailed analysis");
         ("error_histogram", "Error frequencies");
         ("warning_histogram", "Warning frequencies")]%string.

Definition labels_doc : json :=
  jdict [("severity", "Severity");
         ("message_count", "Messages");
         ("error_message", "Error message");
         ("warning_message", "Warning message");
         ("frequency", "Frequency")]%string.

Definition visualization_doc : json :=
  JObj [(lit "colors", colors_doc);
        (lit "titles", titles_doc);
        (lit "labels", labels_doc)].

Definition config_doc (save : bool) (fmts : list string) : json :=
  JObj [
    (lit "log_patterns_file", jstr "config/log_patterns.json");
    (lit "visualization", visualization_doc);
    (lit "output",
       JObj [(lit "save_plots", JBool save);
             (lit "output_dir", jstr "output");
             (lit "formats", JArr (map jstr fmts))])
  ].

Definition error_logs_doc : json :=
  JObj [(lit "A", JArr [jstr "Could not connect to: {target}";
                        jstr "Rollback failed"]);
        (lit "B", JArr [jstr "Invalid file format!"])].

Definition warning_logs_doc : json :=
  JObj [(lit "C", JArr [jstr "Ignoring size limit ({value}). "])].

Definition patterns_doc : json :=
  JObj [(lit "error_logs", error_logs_doc);
        (lit "warning_logs", warning_logs_doc)].

(** Both files in place. *)
Definition docs (save : bool) (fmts : list string) : dict json :=
  [(lit "config/config.json", config_doc save fmts);
   (lit "config/log_patterns.json", patterns_doc)].


Definition sdict (l : list (string * string)) : dict str :=
  map (fun kv => (lit (fst kv), lit (snd kv))) l.

(** The catalogs of the specification's examples. *)
Definition catalog_AB : catalog :=
  [(lit "A", [lit "m1"; lit "m2"]); (lit "B", [lit "m3"])].

Definition catalog_C : catalog := [(lit "C", [lit "w1"])].

(** A configuration at its annotated types, over those catalogs. *)
Definition typed_config : Config :=
  {| log_patterns_file := lit "config/log_patterns.json";
     visualization :=
       {| colors := sdict [("error", "#ff6b6b"); ("warning", "#ffd93d")]%string;
          titles := sdict [("error_distribution", "Errors by category");
                           ("severity_comparison", "Messages by severity");
                           ("detailed_analysis", "Detailed analysis");
                           ("error_histogram", "Error frequencies");
                           ("warning_histogram", "Warning frequencies")]%string;
          labels := sdict [("severity", "Severity");
                           ("message_count", "Messages");
                           ("error_message", "Error message");
                           ("warning_message", "Warning message");
                           ("frequency", "Frequency")]%string |};
     output := {| save_plots := true;
                  output_dir := lit "output";
                  formats := [lit "html"] |};
     error_logs := Some catalog_AB;
     warning_logs := Some catalog_C |}.

(** What [load_config] returns from the two documents, and the same at
    its annotated types. *)
Definition loaded_raw : RawConfig :=
  {| raw_log_patterns_file := jstr "config/log_patterns.json";
     raw_visualization :=
       {| raw_colors := colors_doc;
          raw_titles := titles_doc;
          raw_labels := labels_doc |};
     raw_output :=
       {| raw_save_plots := JBool true;
          raw_output_dir := jstr "output";
          raw_formats := JArr [jstr "html"] |};
     raw_error_logs := error_logs_doc;
     raw_warning_logs := warning_logs_doc |}.

Definition loaded_config : Config :=
  {| log_patterns_file := log_patterns_file typed_config;
     visualization := visualization typed_config;
     output := output typed_config;
     error_logs :=
       Some [(lit "A", [lit "Could not connect to: {target}";
                        lit "Rollback failed"]);
             (lit "B", [lit "Invalid file format!"])];
     warning_logs :=
       Some [(lit "C", [lit "Ignoring size limit ({value}). "])] |}.

(** The visualizer [LogVisualizer_init] builds for [typed_config]: the
    messages of its two catalogs have no placeholder and no outer
    whitespace. *)
Definition visualizer : LogVisualizer :=
  {| config := typed_config;
     processed_error_logs := catalog_AB;
     processed_warning_logs := catalog_C |}.

(** Environments: everything in place; the output directory unwritable,
    with and without [save_plots]; the configuration file missing, its
    directory present or impossible to create; the patterns file missing. *)
Definition env_ok : Env :=
  sample_env (docs true ["html"%string]) true true true.

Definition env_unwritable : Env :=
  sample_env (docs true ["html"%string]) true true false.





End Sample.

(* ===================================================================== *)
(** ** Further readings of a run *)
(* ===================================================================== *)

(** The formats [_save_figure] writes a file for. *)
Definition supported (fmt : str) : bool :=
  str_eqb fmt (lit "html") || str_eqb fmt (lit "png").


(** The categories of a catalog with the number of messages of each. *)
Definition shape (logs : catalog) : list (str * nat) :=
  map (fun kv => (fst kv, List.length (snd kv))) logs.

Section Readings.

Context {env : Env}.


Definition never_writes {A} (c : M World A) : Prop :=
  forall st r st', c st = (r, st') ->
                   written_files (trace st') = written_files (trace st).

(** A computation that shows [n] figures and then prints [lines], or
    raises after showing fewer than [n] figures; it does nothing else that
    can be observed. *)
Definition shows_then_prints (n : nat) (lines : list str) (c : M World unit)
  : Prop :=
  forall st,
    match c st with
    | (Ok _, st') =>
        exists figs,
          List.length figs = n
          /\ trace st' = trace st ++ map Shown figs ++ map Printed lines
    | (Raise _, st') =>
        exists figs,
          (List.length figs < n)%nat
          /\ trace st' = trace st ++ map Shown figs
    end.

(** A computation that builds, saves and shows the figures [builds] one
    after the other: when it raises, the figures it has shown are those of
    the charts before the failing one, in order. *)
Definition keeps_earlier_charts (builds : list (result Figure))
    (c : M World unit) : Prop :=
  forall st st' e,
    c st = (Raise e, st') ->
    exists figs,
      (List.length figs < List.length builds)%nat
      /\ map Ok figs = firstn (List.length figs) builds
      /\ shown_figures (trace st') = shown_figures (trace st) ++ figs.

End Readings.

(* ===================================================================== *)
(** ** The standalone script ([log_analyzer.py]) *)
(* ===================================================================== *)

Module Legacy.

Definition a_acute : str := [225%N].
Definition i_acute : str := [237%N].
Definition o_acute : str := [243%N].

Definition ValueError_lengths : exn :=
  OtherException (lit "ValueError")
    (lit "All arrays must be of the same length").

(** [pd.DataFrame({n1: c1, n2: c2, n3: c3})]: the columns side by side, or
    [ValueError] when their lengths differ. *)
Definition DataFrame_of_columns (n1 n2 n3 : str)
    (c1 : list str) (c2 : list nat) (c3 : list str) : result DataFrame :=
  if Nat.eqb (List.length c1) (List.length c2)
     && Nat.eqb (List.length c2) (List.length c3)
  then Ok (RowsFrame [n1; n2; n3]
             (map (fun r => {| Category := fst (fst r);
                               Count := snd (fst r);
                               Severity := snd r |})
                  (combine (combine c1 c2) c3)))
  else Raise ValueError_lengths.

(** One row per message of a category, each with the category's count:
    what the columns of the script's table amount to. *)
Definition rows_per_message (severity : str) (logs : catalog) : list Row :=
  flat_map (fun kv => repeat (row_of severity kv) (List.length (snd kv))) logs.

(** [msg.split('{')[0]], the preprocessing of the first three charts (no
    [strip]). *)
Definition prefix_of_msg (msg : str) : result str :=
  py_index0 (py_split LBRACE msg).

(** [{cat: [msg.split('{')[0] for msg in msgs] for cat, msgs in
    logs.items()}]. *)
Definition processed (logs : catalog) : result catalog :=
  dict_comp (list_comp prefix_of_msg) logs [].

(** One loop of [create_detailed_category_analysis]: each of the three
    lists extended by [len(messages)] copies per category. *)
Definition extend_columns (severity : str) (logs : catalog)
    (cols : list str * list nat * list str) : list str * list nat * list str :=
  fold_left
    (fun cols kv =>
       let n := List.length (snd kv) in
       (fst (fst cols) ++ repeat (fst kv) n,
        snd (fst cols) ++ repeat n n,
        snd cols ++ repeat severity n))
    logs cols.

(** The loop of the two histograms:
    [for msgs in logs.values(): out.extend([msg.split('{')[0].strip() ...])]. *)
Fixpoint extend_processed (vals : list (list str)) (out : list str)
  : result (list str) :=
  match vals with
  | [] => Ok out
  | msgs :: r =>
      rbind (list_comp preprocess_msg msgs)
            (fun ms => extend_processed r (out ++ ms))
  end.

Section Script.

Context {env : Env}.

Local Open Scope py_scope.

(** The two module-level dictionaries the functions read. *)
Variables (error_logs warning_logs : catalog).

Definition error_distribution_pie : chart :=
  let error_counts := category_counts error_logs in
  Pie (keys error_counts) (values error_counts) (3 # 10).

Definition error_distribution_figure : result Figure :=
  let pie := error_distribution_pie in
  processed_error_logs <~ processed error_logs ;;
  fig <~ validated (new_figure pie) ;;
  validated (update_layout fig
    {| title := Some (lit "Distribuci" ++ o_acute ++ lit "n de Errores por Categor"
                        ++ i_acute ++ lit "a");
       annotations := Some [{| ann_text := lit "Errores";
                               ann_x := 1 # 2; ann_y := 1 # 2;
                               ann_font_size := 20;
                               ann_showarrow := false |}];
       xaxis_title := None; yaxis_title := None; template := None |}).

Definition create_error_distribution_chart : M World unit :=
  fig <- lift error_distribution_figure ;;
  show fig.

Definition severity_bar : result chart :=
  processed_error_logs <~ processed error_logs ;;
  processed_warning_logs <~ processed warning_logs ;;
  let error_total := severity_total processed_error_logs in
  let warning_total := severity_total processed_warning_logs in
  Ok (Bar [lit "ERROR"; lit "WARNING"]
          [error_total; warning_total] [error_total; warning_total]
          (lit "auto")).

Definition severity_comparison_figure : result Figure :=
  bar <~ severity_bar ;;
  fig <~ validated (new_figure bar) ;;
  validated (update_layout fig
    {| title := Some (lit "Comparaci" ++ o_acute
                        ++ lit "n de Mensajes por Nivel de Severidad");
       annotations := None;
       xaxis_title := Some (lit "Nivel de Severidad");
       yaxis_title := Some (lit "Cantidad de Mensajes");
       template := Some (lit "plotly_white") |}).

Definition create_severity_comparison : M World unit :=
  fig <- lift severity_comparison_figure ;;
  show fig.

(** The data frame of [create_detailed_category_analysis]. *)
Definition detailed_frame : result DataFrame :=
  processed_error_logs <~ processed error_logs ;;
  processed_warning_logs <~ processed warning_logs ;;
  let cols := ([], [], []) in
  let cols := extend_columns (lit "ERROR") processed_error_logs cols in
  let cols := extend_columns (lit "WARNING") processed_warning_logs cols in
  DataFrame_of_columns
    (lit "Categor" ++ i_acute ++ lit "a") (lit "Cantidad") (lit "Severidad")
    (fst (fst cols)) (snd (fst cols)) (snd cols).

Definition detailed_analysis_figure : result Figure :=
  df <~ detailed_frame ;;
  fig <~ validated (new_figure
           (Treemap df
              [PxConstant (lit "Todos los Mensajes");
               PxColumn (lit "Severidad");
               PxColumn (lit "Categor" ++ i_acute ++ lit "a")]
              (lit "Cantidad") (lit "Severidad")
              (dict_of_items [(lit "ERROR", lit "#ff6b6b");
                              (lit "WARNING", lit "#ffd93d")]))) ;;
  validated (update_layout fig
    {| title := Some (lit "An" ++ a_acute ++ lit "lisis Detallado por Categor"
                        ++ i_acute ++ lit "a y Severidad");
       annotations := None;
       xaxis_title := None; yaxis_title := None; template := None |}).

Definition create_detailed_category_analysis : M World unit :=
  fig <- lift detailed_analysis_figure ;;
  show fig.

Definition error_histogram_figure : result Figure :=
  processed_error_msgs <~ extend_processed (values error_logs) [] ;;
  let df := MessageFrame processed_error_msgs in
  fig <~ validated (new_figure
           (Histogram df (lit "Mensaje") [lit "#ff6b6b"])) ;;
  validated (update_layout fig
    {| title := Some (lit "Histograma de Frecuencias de Errores");
       annotations := None;
       xaxis_title := Some (lit "Mensaje de Error");
       yaxis_title := Some (lit "Frecuencia");
       template := None |}).

Definition create_error_histogram : M World unit :=
  fig <- lift error_histogram_figure ;;
  show fig.

Definition warning_histogram_figure : result Figure :=
  processed_warning_msgs <~ extend_processed (values warning_logs) [] ;;
  let df := MessageFrame processed_warning_msgs in
  fig <~ validated (new_figure
           (Histogram df (lit "Mensaje") [lit "#ffd93d"])) ;;
  validated (update_layout fig
    {| title := Some (lit "Histograma de Frecuencias de Warnings");
       annotations := None;
       xaxis_title := Some (lit "Mensaje de Warning");
       yaxis_title := Some (lit "Frecuencia");
       template := None |}).

Definition create_warning_histogram : M World unit :=
  fig <- lift warning_histogram_figure ;;
  show fig.

(** What [main] prints after the five charts. *)
Definition summary_lines : list str :=
  [lit "An" ++ a_acute ++ lit "lisis completado. Se han mostrado los gr"
     ++ a_acute ++ lit "ficos en pantalla.";
   lit "1. Distribuci" ++ o_acute ++ lit "n de errores por categor"
     ++ i_acute ++ lit "a";
   lit "2. Comparaci" ++ o_acute ++ lit "n de mensajes por severidad";
   lit "3. An" ++ a_acute ++ lit "lisis detallado por categor" ++ i_acute
     ++ lit "a y severidad";
   lit "4. Histograma de frecuencias de errores";
   lit "5. Histograma de frecuencias de warnings"].

(** [main()] of the script: no handler, an exception ends it. *)
Definition main : M World unit :=
  create_error_distribution_chart ;;
  create_severity_comparison ;;
  create_detailed_category_analysis ;;
  create_error_histogram ;;
  create_warning_histogram ;;
  for_each summary_lines print.

End Script.

(** The dictionaries of the script. *)
Definition conexion : str := lit "Conexi" ++ o_acute ++ lit "n".
Definition configuracion : str := lit "configuraci" ++ o_acute ++ lit "n".

Definition error_logs : catalog :=
  [(conexion,
    [lit "Could not connect to: {" ++ configuracion ++ lit "}";
     lit "Invalid configuration: {" ++ configuracion ++ lit "}";
     lit "Connection setup failed to context {contexto}!";
     lit "Failed commiting read session on queue {nombre_cola}";
     lit "Sending failed to {nombre_cola}!";
     lit "Error while receiving from {nombre_cola}";
     lit "Error while receiving from {nombre_cola} The node will stop.";
     lit "Rollback failed"]);
   (lit "Archivo",
    [lit "Invalid file format!";
     lit "Error reading bytes message >>> {mensaje}";
     lit "Error reading file content (file = {nombre_archivo})";
     lit "Unknown message type!!!"]);
   (lit "Control",
    [lit "START request will be ignored for node [{nodo}] which has a pending start request, control point [{punto_control}]";
     lit "Error retrieving participant data from form";
     lit "Received null participant data (id) for validating";
     lit "Received invalid participant for validating"])].

Definition warning_logs : catalog :=
  [(lit "Configuraci" ++ o_acute ++ lit "n",
    [lit "Failed parsing log message size limit ({valor}). Will default to none!";
     lit "Ignoring message size limit ({valor}). Cannot be smaller than 1000. Will default to none!";
     lit "Failed parsing minimum commit ({valor}). Will default to {valor_default}";
     lit "Ignoring message size limit ({valor}). Cannot be smaller than 1 or greater than 100. Will default to 1";
     lit "Ignoring message mininum time commit ({valor}). Will default to {valor_default}"])].

(** The script as it runs: [main] on its two dictionaries. *)
Definition script_main {env : Env} : M World unit :=
  main error_logs warning_logs.

End Legacy.

(** More sample data: a visualizer that is asked for three formats, one of
    them unknown, and one that is asked for unknown formats only; a
    configuration document with no [log_patterns_file]. *)
Module Sample2.

Definition with_formats (fmts : list str) : LogVisualizer :=
  {| config :=
       {| log_patterns_file := log_patterns_file Sample.typed_config;
          visualization := visualization Sample.typed_config;
          output := {| save_plots := true;
                       output_dir := lit "output";
                       formats := fmts |};
          error_logs := error_logs Sample.typed_config;
          warning_logs := warning_logs Sample.typed_config |};
     processed_error_logs := Sample.catalog_AB;
     processed_warning_logs := Sample.catalog_C |}.

Definition a_figure : Figure := new_figure (Pie [] [] (3 # 10)).

Definition env_svg_only : Env :=
  Sample.sample_env (Sample.docs true ["svg"%string]) true true true.

Definition svg_raw : RawConfig :=
  {| raw_log_patterns_file := raw_log_patterns_file Sample.loaded_raw;
     raw_visualization := raw_visualization Sample.loaded_raw;
     raw_output :=
       {| raw_save_plots := JBool true;
          raw_output_dir := Sample.jstr "output";
          raw_formats := JArr [Sample.jstr "svg"] |};
     raw_error_logs := raw_error_logs Sample.loaded_raw;
     raw_warning_logs := raw_warning_logs Sample.loaded_raw |}.

Definition svg_config : Config :=
  {| log_patterns_file := log_patterns_file Sample.loaded_config;
     visualization := visualization Sample.loaded_config;
     output := {| save_plots := true;
                  output_dir := lit "output";
                  formats := [lit "svg"] |};
     error_logs := error_logs Sample.loaded_config;
     warning_logs := warning_logs Sample.loaded_config |}.

Definition env_no_key : Env :=
  Sample.sample_env [(lit "config/config.json", JObj [])] true true true.

(** Writes fail once the world holds a file: the first write of a run
    succeeds and the second raises. *)
Definition env_second_write_fails : Env :=
  let base := Sample.sample_env [] true true true in
  {| World := @World base;
     Path := @Path base;
     mk_path := @mk_path base;
     path_parent := @path_parent base;
     path_join := @path_join base;
     path_str := @path_str base;
     path_exists := @path_exists base;
     path_mkdir := @path_mkdir base;
     json_load_file := @json_load_file base;
     py_repr := @py_repr base;
     type_error_text := @type_error_text base;
     plotly_validate := @plotly_validate base;
     to_html := @to_html base;
     to_image := @to_image base;
     write_file := fun w p content =>
       match w with
       | [] => Ok [(p, content)]
       | _ :: _ => Raise (Sample.PermissionError p)
       end;
     fig_show := @fig_show base;
     untyped_pipeline := @untyped_pipeline base |}.

End Sample2.

(* ===================================================================== *)
(** * Properties *)
(* ===================================================================== *)

(** ** Strings *)

Lemma str_eqb_eq (a b : str) : str_eqb a b = true <-> a = b.
Proof.
  revert b; induction a as [|x a IH]; intros [|y b]; simpl;
    try (split; [discriminate | discriminate]); try tauto.
  rewrite andb_true_iff, N.eqb_eq, IH.
  split; [intros [-> ->]; reflexivity | intros E; inversion E; auto].
Qed.

Lemma str_eqb_refl (a : str) : str_eqb a a = true.
Proof. apply str_eqb_eq; reflexivity. Qed.

Lemma str_eqb_neq (a b : str) : str_eqb a b = false <-> a <> b.
Proof.
  rewrite <- str_eqb_eq. destruct (str_eqb a b); split; congruence.
Qed.

(** The first piece of a split is the text before the first separator. *)
Lemma py_split_first (sep : N) (s : str) :
  exists pre rest, py_split sep s = pre :: rest /\ before_first sep s pre.
Proof.
  induction s as [|c r (pre & rest & E & Hno & Hshape)]; simpl.
  - exists [], []. repeat split; auto.
  - destruct (N.eqb_spec c sep) as [->|Hc].
    + exists [], (py_split sep r). repeat split; auto.
      right. exists r. reflexivity.
    + rewrite E; simpl. exists (c :: pre), rest. repeat split.
      * intros [H|H]; [congruence | auto].
      * destruct Hshape as [->|(t & ->)]; [left | right; exists t]; reflexivity.
Qed.

Lemma py_split_no_sep (sep : N) (s : str) :
  ~ In sep s -> py_split sep s = [s].
Proof.
  induction s as [|c r IH]; simpl; intros H; [reflexivity|].
  destruct (N.eqb_spec c sep) as [->|Hc]; [tauto|].
  rewrite IH by tauto. reflexivity.
Qed.

Lemma py_lstrip_spec (s : str) :
  exists l, s = l ++ py_lstrip s
            /\ forallb is_space l = true
            /\ (forall c, hd_error (py_lstrip s) = Some c -> is_space c = false).
Proof.
  induction s as [|c r (l & E & Hl & Hhd)]; simpl.
  - exists []. repeat split; auto. discriminate.
  - destruct (is_space c) eqn:Hc.
    + exists (c :: l). simpl. rewrite Hc, Hl, <- E. auto.
    + exists []. repeat split; auto. simpl. congruence.
Qed.

Lemma py_lstrip_fixed (s : str) :
  (forall c, hd_error s = Some c -> is_space c = false) -> py_lstrip s = s.
Proof.
  destruct s as [|c r]; simpl; intros H; [reflexivity|].
  rewrite (H c eq_refl). reflexivity.
Qed.

Lemma forallb_rev {A} (f : A -> bool) (l : list A) :
  forallb f l = true -> forallb f (rev l) = true.
Proof.
  rewrite !forallb_forall. intros H x Hx. apply H, in_rev, Hx.
Qed.

(** [py_strip] removes exactly the whitespace at both ends. *)
Lemma py_strip_trimmed (s : str) : trimmed s (py_strip s).
Proof.
  unfold py_strip, py_rstrip.
  destruct (py_lstrip_spec s) as (l & El & Hl & Hhd).
  destruct (py_lstrip_spec (rev (py_lstrip s))) as (r & Er & Hr & Hlast).
  set (a := py_lstrip s) in *. set (t := py_lstrip (rev a)) in *.
  assert (Ea : a = rev t ++ rev r).
  { rewrite <- rev_app_distr, <- Er, rev_involutive. reflexivity. }
  exists l, (rev r). repeat split.
  - rewrite <- Ea. exact El.
  - exact Hl.
  - apply forallb_rev, Hr.
  - intros c Hc. apply Hhd. rewrite Ea.
    destruct (rev t); [discriminate | exact Hc].
  - rewrite rev_involutive. exact Hlast.
Qed.

Lemma trimmed_no_more (s t : str) : trimmed s t -> py_strip t = t.
Proof.
  intros (l & r & _ & _ & _ & Hfirst & Hlast).
  unfold py_strip, py_rstrip.
  rewrite (py_lstrip_fixed t Hfirst), (py_lstrip_fixed (rev t) Hlast).
  apply rev_involutive.
Qed.

Lemma trimmed_keeps_out (c : N) (s t : str) :
  trimmed s t -> ~ In c s -> ~ In c t.
Proof.
  intros (l & r & -> & _) H Hc. apply H.
  apply in_or_app; right. apply in_or_app; left. exact Hc.
Qed.

Lemma py_lstrip_spaces (l s : str) :
  forallb is_space l = true -> py_lstrip (l ++ s) = py_lstrip s.
Proof.
  induction l as [|c r IH]; simpl; [reflexivity|].
  intros H. apply andb_true_iff in H. destruct H as [-> H]. auto.
Qed.

(** The two relations of the specification determine their result: the
    trimmed form of [s] is [py_strip s] and nothing else, the text before
    the first [c] is unique. *)
Lemma trimmed_is_strip (s t : str) : trimmed s t -> t = py_strip s.
Proof.
  intros (l & r & -> & Hl & Hr & Hfirst & Hlast).
  unfold py_strip, py_rstrip. rewrite (py_lstrip_spaces _ _ Hl).
  destruct t as [|c t'].
  - simpl. rewrite <- (app_nil_r r), (py_lstrip_spaces _ _ Hr). reflexivity.
  - rewrite (py_lstrip_fixed ((c :: t') ++ r)) by exact Hfirst.
    rewrite rev_app_distr, (py_lstrip_spaces _ _ (forallb_rev _ _ Hr)).
    rewrite (py_lstrip_fixed _ Hlast). symmetry; apply rev_involutive.
Qed.

Lemma before_first_nil (c : N) (p : str) : before_first c [] p -> p = [].
Proof.
  intros [_ [E|(rest & E)]]; [auto|].
  destruct p; discriminate.
Qed.

Lemma before_first_cons (c m : N) (msg p : str) :
  before_first c (m :: msg) p ->
  (p = [] /\ m = c)
  \/ (exists p', p = m :: p' /\ m <> c /\ before_first c msg p').
Proof.
  intros [Hno E]. destruct p as [|x p'].
  - left. split; [reflexivity|].
    destruct E as [E|(rest & E)]; [discriminate | inversion E; reflexivity].
  - right. exists p'.
    assert (Hx : x = m /\ (msg = p' \/ exists rest, msg = p' ++ c :: rest)).
    { destruct E as [E|(rest & E)]; inversion E; subst; split; auto.
      right. exists rest. reflexivity. }
    destruct Hx as [-> Hshape]. split; [reflexivity|]. split.
    + intros ->. apply Hno. left. reflexivity.
    + split; [|exact Hshape]. intros H. apply Hno. right. exact H.
Qed.

Lemma before_first_unique (c : N) (msg p q : str) :
  before_first c msg p -> before_first c msg q -> p = q.
Proof.
  revert p q. induction msg as [|m msg IH]; intros p q Hp Hq.
  - rewrite (before_first_nil _ _ Hp), (before_first_nil _ _ Hq). reflexivity.
  - destruct (before_first_cons _ _ _ _ Hp) as [[-> Hm]|(p' & -> & Hm & Hp')];
      destruct (before_first_cons _ _ _ _ Hq) as [[-> Hm']|(q' & -> & Hm' & Hq')];
      try congruence.
    f_equal. apply IH; assumption.
Qed.

Lemma preprocessed_iff (msg out : str) :
  preprocessed msg out <-> preprocess_msg msg = Ok out.
Proof.
  split.
  - intros (pre & Hpre & Ht). unfold preprocess_msg.
    destruct (py_split_first LBRACE msg) as (pre' & rest & -> & Hpre').
    simpl. rewrite (before_first_unique _ _ _ _ Hpre' Hpre).
    rewrite (trimmed_is_strip _ _ Ht). reflexivity.
  - intros E. unfold preprocess_msg in E.
    destruct (py_split_first LBRACE msg) as (pre & rest & Es & Hpre).
    rewrite Es in E. simpl in E. inversion E; subst.
    exists pre. split; [exact Hpre | apply py_strip_trimmed].
Qed.

(** ** One message *)

Lemma preprocess_msg_spec (msg : str) :
  exists out, preprocess_msg msg = Ok out /\ preprocessed msg out.
Proof.
  unfold preprocess_msg.
  destruct (py_split_first LBRACE msg) as (pre & rest & -> & Hpre).
  simpl. exists (py_strip pre). split; [reflexivity|].
  exists pre. split; [exact Hpre | apply py_strip_trimmed].
Qed.

Lemma preprocess_msg_no_brace (msg : str) :
  ~ In LBRACE msg -> preprocess_msg msg = Ok (py_strip msg).
Proof.
  intros H. unfold preprocess_msg. rewrite (py_split_no_sep _ _ H). reflexivity.
Qed.

Lemma preprocessed_clean (msg out : str) :
  preprocessed msg out -> ~ In LBRACE out /\ py_strip out = out.
Proof.
  intros (pre & (Hno & _) & Ht). split.
  - eapply trimmed_keeps_out; eassumption.
  - eapply trimmed_no_more; eassumption.
Qed.

Lemma preprocess_msg_fixed (msg out : str) :
  preprocessed msg out -> preprocess_msg out = Ok out.
Proof.
  intros H. destruct (preprocessed_clean _ _ H) as [Hno Hfix].
  rewrite (preprocess_msg_no_brace _ Hno), Hfix. reflexivity.
Qed.

(** ** Lists of messages *)

Lemma list_comp_preprocess (msgs : list str) :
  exists outs, list_comp preprocess_msg msgs = Ok outs
               /\ Forall2 preprocessed msgs outs.
Proof.
  induction msgs as [|m r (outs & E & H)]; simpl.
  - exists []. split; [reflexivity | constructor].
  - destruct (preprocess_msg_spec m) as (o & -> & Ho). simpl.
    rewrite E. simpl. exists (o :: outs). split; [reflexivity | constructor; auto].
Qed.

Lemma list_comp_fixed (outs : list str) :
  Forall (fun o => exists m, preprocessed m o) outs ->
  list_comp preprocess_msg outs = Ok outs.
Proof.
  induction 1 as [|o r (m & Hm) _ IH]; simpl; [reflexivity|].
  rewrite (preprocess_msg_fixed _ _ Hm). simpl. rewrite IH. reflexivity.
Qed.

Lemma Forall2_length_eq {A B} (R : A -> B -> Prop) l l' :
  Forall2 R l l' -> List.length l' = List.length l.
Proof. induction 1; simpl; congruence. Qed.

(** ** Dictionaries *)

Lemma dict_set_fresh {V} (k : str) (v : V) (d : dict V) :
  ~ In k (keys d) -> dict_set k v d = d ++ [(k, v)].
Proof.
  induction d as [|[k' v'] r IH]; simpl; intros H; [reflexivity|].
  destruct (str_eqb k k') eqn:E.
  - apply str_eqb_eq in E. subst. tauto.
  - rewrite IH by tauto. reflexivity.
Qed.

Lemma dict_set_keys_present {V} (k : str) (v : V) (d : dict V) :
  In k (keys d) -> keys (dict_set k v d) = keys d.
Proof.
  induction d as [|[k' v'] r IH]; simpl; intros H; [tauto|].
  destruct (str_eqb k k') eqn:E; simpl; [reflexivity|].
  apply str_eqb_neq in E. destruct H as [H|H]; [congruence|].
  rewrite IH by assumption. reflexivity.
Qed.

Lemma in_keys_dec {V} (k : str) (d : dict V) : {In k (keys d)} + {~ In k (keys d)}.
Proof. apply in_dec, (list_eq_dec N.eq_dec). Qed.

Lemma keys_app {V} (a b : dict V) : keys (a ++ b) = keys a ++ keys b.
Proof. apply map_app. Qed.

Lemma dict_set_wf {V} (k : str) (v : V) (d : dict V) :
  wf_dict d -> wf_dict (dict_set k v d).
Proof.
  unfold wf_dict. intros H. destruct (in_keys_dec k d) as [Hin|Hout].
  - rewrite dict_set_keys_present; assumption.
  - rewrite dict_set_fresh, keys_app by assumption. simpl.
    apply NoDup_app; [exact H | repeat constructor; simpl; tauto |].
    intros x Hx [<-|[]]. exact (Hout Hx).
Qed.

Lemma dict_set_keys_incl {V} (k : str) (v : V) (d : dict V) (x : str) :
  In x (keys (dict_set k v d)) -> x = k \/ In x (keys d).
Proof.
  destruct (in_keys_dec k d) as [Hin|Hout].
  - rewrite dict_set_keys_present by assumption. auto.
  - rewrite dict_set_fresh, keys_app, in_app_iff by assumption. simpl.
    intuition.
Qed.

Lemma dict_set_values {V} (P : V -> Prop) (k : str) (v : V) (d : dict V) :
  P v -> Forall P (values d) -> Forall P (values (dict_set k v d)).
Proof.
  intros Hv. induction d as [|[k' v'] r IH]; simpl; intros H.
  - repeat constructor; assumption.
  - inversion H; subst. destruct (str_eqb k k'); simpl; constructor; auto.
Qed.

Lemma dict_get_in {V} (k : str) (v : V) (d : dict V) :
  wf_dict d -> In (k, v) d -> dict_get k d = Some v.
Proof.
  unfold wf_dict. induction d as [|[k' v'] r IH]; simpl; intros Hwf Hin; [tauto|].
  inversion Hwf as [|? ? Hnot Hr]; subst.
  destruct Hin as [E|Hin].
  - inversion E; subst. rewrite str_eqb_refl. reflexivity.
  - destruct (str_eqb k k') eqn:E.
    + apply str_eqb_eq in E; subst. exfalso. apply Hnot.
      change k' with (fst (k', v)). apply in_map. exact Hin.
    + apply IH; assumption.
Qed.

Lemma NoDup_app_cons {A} (a : list A) (x : A) (b : list A) :
  NoDup (a ++ x :: b) -> ~ In x a /\ NoDup ((a ++ [x]) ++ b).
Proof.
  intros H. split.
  - intros Hx. apply NoDup_remove_2 in H. apply H, in_or_app; auto.
  - rewrite <- app_assoc. exact H.
Qed.

(** Built from items with distinct keys, a dictionary is those items. *)
Lemma fold_dict_set_fresh {V} (items acc : dict V) :
  NoDup (keys acc ++ keys items) ->
  fold_left (fun d kv => dict_set (fst kv) (snd kv) d) items acc = acc ++ items.
Proof.
  revert acc. induction items as [|[k v] r IH]; simpl; intros acc H.
  - symmetry; apply app_nil_r.
  - apply NoDup_app_cons in H. destruct H as [Hk H].
    rewrite dict_set_fresh by assumption.
    rewrite IH by (rewrite keys_app; exact H).
    rewrite <- app_assoc. reflexivity.
Qed.

Lemma dict_of_items_wf {V} (items : dict V) :
  wf_dict items -> dict_of_items items = items.
Proof. intros H. apply (fold_dict_set_fresh items []). exact H. Qed.

(** A dict comprehension over distinct keys maps the items one by one, in
    order, when the value expression returns on each of them. *)
Lemma dict_comp_fresh {V W} (f : V -> result W) (R : V -> W -> Prop)
    (items : dict V) :
  forall acc,
    NoDup (keys acc ++ keys items) ->
    (forall kv, In kv items -> exists w, f (snd kv) = Ok w /\ R (snd kv) w) ->
    exists out,
      dict_comp f items acc = Ok (acc ++ out)
      /\ Forall2 (fun kv kv' => fst kv' = fst kv /\ R (snd kv) (snd kv'))
                 items out.
Proof.
  induction items as [|[k v] r IH]; simpl; intros acc Hnd Hf.
  - exists []. rewrite app_nil_r. split; [reflexivity | constructor].
  - destruct (Hf (k, v) (or_introl eq_refl)) as (w & E & Hw).
    simpl in E, Hw. rewrite E. simpl.
    apply NoDup_app_cons in Hnd. destruct Hnd as [Hk Hnd].
    rewrite dict_set_fresh by assumption.
    destruct (IH (acc ++ [(k, w)])) as (out & -> & Hout).
    + rewrite keys_app. exact Hnd.
    + intros kv Hkv. apply Hf. right. exact Hkv.
    + exists ((k, w) :: out). rewrite <- app_assoc. split; [reflexivity|].
      constructor; [simpl; auto | exact Hout].
Qed.

(** Whatever the items, a dict comprehension whose value expression always
    returns yields a well-formed dictionary of such values, under keys of
    the items. *)
Lemma dict_comp_total {V W} (f : V -> result W) (P : W -> Prop)
    (Hf : forall v, exists w, f v = Ok w /\ P w) (items : list (str * V)) :
  forall acc,
    wf_dict acc -> Forall P (values acc) ->
    exists out,
      dict_comp f items acc = Ok out /\ wf_dict out /\ Forall P (values out)
      /\ (forall k, In k (keys out) -> In k (keys acc) \/ In k (keys items)).
Proof.
  induction items as [|[k v] r IH]; simpl; intros acc Hwf HP.
  - exists acc. auto.
  - destruct (Hf v) as (w & -> & Hw). simpl.
    destruct (IH (dict_set k w acc)) as (out & E & Hout & HPout & Hkeys).
    + apply dict_set_wf, Hwf.
    + apply dict_set_values; assumption.
    + exists out. repeat split; auto.
      intros x Hx. destruct (Hkeys x Hx) as [H|H]; [|auto].
      apply dict_set_keys_incl in H. intuition.
Qed.

Lemma Forall2_fst_keys {V W} (R : V -> W -> Prop) (a : dict V) (b : dict W) :
  Forall2 (fun kv kv' => fst kv' = fst kv /\ R (snd kv) (snd kv')) a b ->
  keys b = keys a.
Proof. induction 1 as [|? ? ? ? [E _]]; simpl; congruence. Qed.

Lemma Forall2_same {A} (a b : list (str * A)) :
  Forall2 (fun kv kv' => fst kv' = fst kv /\ snd kv' = snd kv) a b -> b = a.
Proof.
  induction 1 as [|[k v] [k' v'] ? ? [E1 E2]]; simpl in *; congruence.
Qed.

(** ** The catalog preprocessor *)

Lemma preprocess_logs_total (logs : catalog) :
  exists out,
    _preprocess_logs logs = Ok out /\ wf_dict out
    /\ Forall (Forall clean) (values out)
    /\ (forall k, In k (keys out) -> In k (keys logs)).
Proof.
  destruct (dict_comp_total (list_comp preprocess_msg) (Forall clean)) with
    (items := logs) (acc := @nil (str * list str))
    as (out & E & Hwf & HP & Hk).
  - intros msgs. destruct (list_comp_preprocess msgs) as (outs & E & H).
    exists outs. split; [exact E|].
    clear E. induction H; constructor; auto. exists x; assumption.
  - constructor.
  - constructor.
  - exists out. repeat split; auto.
    intros k H. destruct (Hk k H) as [[]|]; assumption.
Qed.

Lemma preprocess_logs_wf (logs : catalog) :
  wf_dict logs ->
  exists out,
    _preprocess_logs logs = Ok out
    /\ Forall2 (fun kv kv' =>
                  fst kv' = fst kv /\ Forall2 preprocessed (snd kv) (snd kv'))
               logs out.
Proof.
  intros Hwf.
  destruct (dict_comp_fresh (list_comp preprocess_msg) (Forall2 preprocessed)
              logs []) as (out & E & H).
  - exact Hwf.
  - intros kv _. apply list_comp_preprocess.
  - exists out. split; assumption.
Qed.

Lemma preprocess_logs_fixed (out : catalog) :
  wf_dict out -> Forall (Forall clean) (values out) ->
  _preprocess_logs out = Ok out.
Proof.
  intros Hwf Hclean.
  destruct (dict_comp_fresh (list_comp preprocess_msg) (fun v w => w = v)
              out []) as (out' & E & H).
  - exact Hwf.
  - intros kv Hkv. exists (snd kv). split; [|reflexivity].
    apply list_comp_fixed.
    rewrite Forall_forall in Hclean. apply Hclean.
    apply in_map. exact Hkv.
  - apply Forall2_same in H. subst out'. exact E.
Qed.

Lemma wf_catalog_AB : wf_dict Sample.catalog_AB.
Proof.
  unfold wf_dict; simpl. repeat constructor; simpl; intuition discriminate.
Qed.

(** C1. For every category-to-messages mapping, [_preprocess_logs] returns
    (it never raises) a mapping with the same keys, in the same order, in
    which each message is replaced by the substring preceding its first
    ['{'], trimmed of whitespace.  A message with no ['{'] is returned
    unchanged apart from the trimming, and ["X {y}"] becomes ["X"]. *)
Theorem preprocess_logs_truncates_and_trims (logs : catalog) :
  wf_dict logs ->
  (exists out,
      _preprocess_logs logs = Ok out
      /\ keys out = keys logs
      /\ Forall2 (fun kv kv' =>
                    fst kv' = fst kv
                    /\ Forall2 preprocessed (snd kv) (snd kv'))
                 logs out)
  /\ (forall msg, exists out, preprocess_msg msg = Ok out /\ preprocessed msg out)
  /\ (forall msg,
        ~ In LBRACE msg ->
        preprocess_msg msg = Ok (py_strip msg) /\ trimmed msg (py_strip msg))
  /\ preprocess_msg (lit "X {y}") = Ok (lit "X").
Proof.
  intros Hwf. repeat split.
  - destruct (preprocess_logs_wf logs Hwf) as (out & E & H).
    exists out. repeat split; [exact E | | exact H].
    eapply Forall2_fst_keys; exact H.
  - apply preprocess_msg_spec.
  - apply preprocess_msg_no_brace; assumption.
  - apply py_strip_trimmed.
Qed.

Lemma preprocess_logs_truncates_and_trims_witness :
  wf_dict Sample.catalog_AB
  /\ exists out,
       _preprocess_logs Sample.catalog_AB = Ok out
       /\ keys out = keys Sample.catalog_AB.
Proof.
  split; [exact wf_catalog_AB|].
  destruct (preprocess_logs_truncates_and_trims Sample.catalog_AB wf_catalog_AB)
    as [(out & E & Hk & _) _].
  exists out. split; assumption.
Defined.

(** C9. Preprocessing is idempotent: [_preprocess_logs] applied to its own
    output returns that output unchanged, because every preprocessed message
    contains no ['{'] and carries no leading or trailing whitespace. *)
Theorem preprocess_logs_idempotent (logs : catalog) :
  exists out,
    _preprocess_logs logs = Ok out
    /\ _preprocess_logs out = Ok out
    /\ (forall category messages m,
          In (category, messages) out -> In m messages ->
          ~ In LBRACE m
          /\ (forall c, hd_error m = Some c -> is_space c = false)
          /\ (forall c, hd_error (rev m) = Some c -> is_space c = false)).
Proof.
  destruct (preprocess_logs_total logs) as (out & E & Hwf & Hclean & _).
  exists out. split; [exact E|]. split.
  - apply preprocess_logs_fixed; assumption.
  - intros category messages m Hin Hm.
    rewrite Forall_forall in Hclean.
    assert (Hms : Forall clean messages).
    { apply Hclean. change messages with (snd (category, messages)).
      apply in_map. exact Hin. }
    rewrite Forall_forall in Hms.
    destruct (Hms m Hm) as (msg & Hpre).
    split; [apply (preprocessed_clean _ _ Hpre)|].
    destruct Hpre as (pre & _ & (l & r & _ & _ & _ & Hfirst & Hlast)).
    split; assumption.
Qed.

(** ** The table builder *)

Lemma append_rows_spec (severity : str) (logs : catalog) (data : list Row) :
  append_rows severity logs data = data ++ map (row_of severity) logs.
Proof.
  unfold append_rows. revert data.
  induction logs as [|kv r IH]; simpl; intros data.
  - symmetry; apply app_nil_r.
  - rewrite IH, <- app_assoc. reflexivity.
Qed.

Lemma frame_rows_of_rows (data : list Row) :
  frame_rows (DataFrame_of_rows data) = data.
Proof. destruct data; reflexivity. Qed.

Lemma prepared_rows (self : LogVisualizer) :
  frame_rows (_prepare_detailed_analysis_data self)
  = map (row_of (lit "ERROR")) (processed_error_logs self)
    ++ map (row_of (lit "WARNING")) (processed_warning_logs self).
Proof.
  unfold _prepare_detailed_analysis_data.
  rewrite frame_rows_of_rows, !append_rows_spec. reflexivity.
Qed.

(** C2. For every pair of preprocessed error and warning catalogs the table
    builder produces exactly one row (category, severity, count) per
    category of each catalog, the count being the number of messages of the
    category: the rows of the error catalog first, in its iteration order,
    then the rows of the warning catalog.  Error totals {A:2, B:1} and
    warning totals {C:1} give (A,ERROR,2), (B,ERROR,1), (C,WARNING,1). *)
Theorem table_rows_errors_then_warnings :
  (forall (cfg : Config) (errors warnings : catalog),
      let self := {| config := cfg;
                     processed_error_logs := errors;
                     processed_warning_logs := warnings |} in
      let rows := frame_rows (_prepare_detailed_analysis_data self) in
      rows = map (fun kv => {| Category := fst kv;
                               Count := List.length (snd kv);
                               Severity := lit "ERROR" |}) errors
             ++ map (fun kv => {| Category := fst kv;
                                  Count := List.length (snd kv);
                                  Severity := lit "WARNING" |}) warnings
      /\ List.length rows = (List.length errors + List.length warnings)%nat)
  /\ (forall cfg : Config,
        _prepare_detailed_analysis_data
          {| config := cfg;
             processed_error_logs := Sample.catalog_AB;
             processed_warning_logs := Sample.catalog_C |}
        = RowsFrame [lit "Category"; lit "Count"; lit "Severity"]
            [ {| Category := lit "A"; Count := 2; Severity := lit "ERROR" |};
              {| Category := lit "B"; Count := 1; Severity := lit "ERROR" |};
              {| Category := lit "C"; Count := 1; Severity := lit "WARNING" |} ]).
Proof.
  split.
  - intros cfg errors warnings self rows. subst rows.
    rewrite prepared_rows. split; [reflexivity|].
    rewrite length_app, !length_map. reflexivity.
  - intros cfg. reflexivity.
Qed.

(** ** Severity totals *)

Lemma fold_add_from (l : list nat) (n : nat) :
  fold_left Nat.add l n = (n + list_sum l)%nat.
Proof.
  revert n. induction l as [|x r IH]; simpl; intros n; [lia|].
  rewrite IH. lia.
Qed.

Lemma py_sum_list_sum (l : list nat) : py_sum l = list_sum l.
Proof. unfold py_sum. rewrite fold_add_from. reflexivity. Qed.

Lemma severity_total_sum (logs : catalog) :
  severity_total logs = list_sum (map (fun kv => List.length (snd kv)) logs).
Proof.
  unfold severity_total, values. rewrite py_sum_list_sum, map_map. reflexivity.
Qed.

Lemma preprocessed_lengths (logs out : catalog) :
  Forall2 (fun kv kv' =>
             fst kv' = fst kv /\ Forall2 preprocessed (snd kv) (snd kv'))
          logs out ->
  map (fun kv => List.length (snd kv)) out
  = map (fun kv => List.length (snd kv)) logs.
Proof.
  induction 1 as [|kv kv' ? ? [_ H] _ IH]; simpl; [reflexivity|].
  rewrite (Forall2_length_eq _ _ _ H), IH. reflexivity.
Qed.

(** C6. For every catalog, the severity total the bar chart computes for it
    (on the preprocessed catalog of the visualizer) is the sum over all
    categories of the number of messages in the category; for the catalog
    {"A": ["m1","m2"], "B": ["m3"]} it is 3. *)
Theorem severity_total_counts_messages (logs : catalog) :
  wf_dict logs ->
  (exists processed,
      _preprocess_logs logs = Ok processed
      /\ severity_total processed
         = list_sum (map (fun kv => List.length (snd kv)) logs))
  /\ (exists processed,
        _preprocess_logs Sample.catalog_AB = Ok processed
        /\ severity_total processed = 3%nat).
Proof.
  intros Hwf. split.
  - destruct (preprocess_logs_wf logs Hwf) as (out & E & H).
    exists out. split; [exact E|].
    rewrite severity_total_sum. f_equal. apply preprocessed_lengths, H.
  - eexists. split; reflexivity.
Qed.

Lemma severity_total_counts_messages_witness :
  wf_dict Sample.catalog_AB
  /\ exists processed,
       _preprocess_logs Sample.catalog_AB = Ok processed
       /\ severity_total processed
          = list_sum (map (fun kv => List.length (snd kv)) Sample.catalog_AB).
Proof.
  split; [exact wf_catalog_AB|].
  exact (proj1 (severity_total_counts_messages Sample.catalog_AB wf_catalog_AB)).
Defined.

(** ** The counts a chart shows *)

Lemma LogVisualizer_init_inv (cfg : Config) (self : LogVisualizer) :
  LogVisualizer_init cfg = Ok self ->
  config self = cfg
  /\ (exists raw, error_logs cfg = Some raw
                  /\ _preprocess_logs raw = Ok (processed_error_logs self))
  /\ (exists raw, warning_logs cfg = Some raw
                  /\ _preprocess_logs raw = Ok (processed_warning_logs self)).
Proof.
  unfold LogVisualizer_init, catalog_items.
  destruct (error_logs cfg) as [e|]; simpl; [|discriminate].
  destruct (_preprocess_logs e) as [pe|] eqn:Ee; simpl; [|discriminate].
  destruct (warning_logs cfg) as [w|]; simpl; [|discriminate].
  destruct (_preprocess_logs w) as [pw|] eqn:Ew; simpl; [|discriminate].
  intros H. inversion H; subst; simpl.
  split; [reflexivity|]. split; eexists; split; eauto.
Qed.

Lemma preprocess_logs_result (raw out : catalog) :
  _preprocess_logs raw = Ok out ->
  wf_dict out /\ (forall k, In k (keys out) -> In k (keys raw)).
Proof.
  intros E. destruct (preprocess_logs_total raw) as (out' & E' & Hwf & _ & Hk).
  rewrite E in E'. inversion E'; subst. split; assumption.
Qed.

Lemma category_counts_wf (logs : catalog) :
  wf_dict logs ->
  category_counts logs = map (fun kv => (fst kv, List.length (snd kv))) logs.
Proof.
  intros Hwf. unfold category_counts. apply dict_of_items_wf.
  unfold wf_dict, keys. rewrite map_map. exact Hwf.
Qed.

Lemma counted_in_item (logs : catalog) (kv : str * list str) :
  wf_dict logs -> In kv logs ->
  counted_in logs (fst kv) (List.length (snd kv)).
Proof.
  intros Hwf Hin. exists (snd kv). split; [|reflexivity].
  apply dict_get_in; [exact Hwf | destruct kv; exact Hin].
Qed.

Lemma Forall2_maps {A B C} (R : B -> C -> Prop) (f : A -> B) (g : A -> C)
    (l : list A) :
  (forall a, In a l -> R (f a) (g a)) -> Forall2 R (map f l) (map g l).
Proof.
  induction l as [|a r IH]; simpl; intros H; constructor; auto.
Qed.

(** C7. In every chart of a visualizer, each category named has an entry in
    the catalog and each count shown is the length of the preprocessed
    message list of that category: so for the labels and values of the pie
    chart, and so for the rows of the treemap's table. *)
Theorem chart_counts_match_catalog (cfg : Config) (self : LogVisualizer) :
  LogVisualizer_init cfg = Ok self ->
  (exists labels counts,
      error_distribution_chart self = Pie labels counts (3 # 10)
      /\ labels = keys (processed_error_logs self)
      /\ Forall2 (fun category count =>
                    In category (categories (error_logs cfg))
                    /\ counted_in (processed_error_logs self) category count)
                 labels counts)
  /\ Forall (fun row =>
               (Severity row = lit "ERROR"
                /\ In (Category row) (categories (error_logs cfg))
                /\ counted_in (processed_error_logs self)
                              (Category row) (Count row))
               \/ (Severity row = lit "WARNING"
                   /\ In (Category row) (categories (warning_logs cfg))
                   /\ counted_in (processed_warning_logs self)
                                 (Category row) (Count row)))
            (frame_rows (_prepare_detailed_analysis_data self)).
Proof.
  intros Hinit.
  destruct (LogVisualizer_init_inv _ _ Hinit)
    as (_ & (re & Ere & Epe) & (rw & Erw & Epw)).
  destruct (preprocess_logs_result _ _ Epe) as [Hwfe Hke].
  destruct (preprocess_logs_result _ _ Epw) as [Hwfw Hkw].
  rewrite Ere, Erw. simpl. split.
  - unfold error_distribution_chart.
    rewrite (category_counts_wf _ Hwfe).
    do 2 eexists. split; [reflexivity|]. unfold keys, values.
    rewrite !map_map. simpl. split; [reflexivity|].
    apply Forall2_maps. intros kv Hin. split.
    + apply Hke. apply in_map. exact Hin.
    + apply counted_in_item; assumption.
  - rewrite prepared_rows. apply Forall_app. split; apply Forall_map;
      apply Forall_forall; intros kv Hin; simpl.
    + left. split; [reflexivity|]. split.
      * apply Hke. apply in_map. exact Hin.
      * apply counted_in_item; assumption.
    + right. split; [reflexivity|]. split.
      * apply Hkw. apply in_map. exact Hin.
      * apply counted_in_item; assumption.
Qed.

Lemma chart_counts_match_catalog_witness :
  exists self,
    LogVisualizer_init Sample.typed_config = Ok self
    /\ error_distribution_chart self
       = Pie [lit "A"; lit "B"] [2%nat; 1%nat] (3 # 10)
    /\ Forall (fun row =>
                 (Severity row = lit "ERROR"
                  /\ In (Category row)
                        (categories (error_logs Sample.typed_config))
                  /\ counted_in (processed_error_logs self)
                                (Category row) (Count row))
                 \/ (Severity row = lit "WARNING"
                     /\ In (Category row)
                           (categories (warning_logs Sample.typed_config))
                     /\ counted_in (processed_warning_logs self)
                                   (Category row) (Count row)))
              (frame_rows (_prepare_detailed_analysis_data self)).
Proof.
  eexists. split; [reflexivity|]. split; [reflexivity|].
  exact (proj2 (chart_counts_match_catalog Sample.typed_config _ eq_refl)).
Defined.

(* ===================================================================== *)
(** ** Runs of the effectful code *)
(* ===================================================================== *)

Section Runs.

Context {env : Env}.

Local Open Scope py_scope.

Lemma write_to_run (file : str) (content : bytes) (st : State World) :
  write_to file content st
  = match write_file (world st) file content with
    | Ok w' => (Ok tt, {| world := w';
                          trace := trace st ++ [Written file content] |})
    | Raise e => (Raise e, st)
    end.
Proof.
  unfold write_to, bind, on_world, emit.
  destruct (write_file (world st) file content); reflexivity.
Qed.

Lemma show_run (fig : Figure) (st : State World) :
  show fig st
  = match fig_show (world st) fig with
    | Ok w' => (Ok tt, {| world := w'; trace := trace st ++ [Shown fig] |})
    | Raise e => (Raise e, st)
    end.
Proof.
  unfold show, bind, on_world, emit.
  destruct (fig_show (world st) fig); reflexivity.
Qed.

(** *** Computations that add no event *)

Lemma silent_ret {A} (a : A) : silent (ret a).
Proof. intros st r st' H. inversion H; reflexivity. Qed.

Lemma silent_lift {A} (r : result A) : silent (lift r).
Proof. intros st r' st' H. inversion H; reflexivity. Qed.

Lemma silent_bind {A B} (c : M World A) (k : A -> M World B) :
  silent c -> (forall a, silent (k a)) -> silent (bind c k).
Proof.
  intros Hc Hk st r st' H. unfold bind in H.
  destruct (c st) as [[a|e] st1] eqn:E.
  - rewrite (Hk a _ _ _ H). eapply Hc; eassumption.
  - inversion H; subst. eapply Hc; eassumption.
Qed.

Lemma silent_exists (p : Path) : silent (exists_ p).
Proof. intros st r st' H. inversion H; reflexivity. Qed.

Lemma silent_on_world (f : World -> result World) : silent (on_world f).
Proof.
  intros st r st' H. unfold on_world in H.
  destruct (f (world st)); inversion H; reflexivity.
Qed.

Lemma silent_load_json (file : json) : silent (load_json file).
Proof. intros st r st' H. inversion H; reflexivity. Qed.

Lemma silent_load_config (config_path : str) : silent (load_config config_path).
Proof.
  unfold load_config.
  repeat first
    [ apply silent_bind; [|intros ?]
    | apply silent_exists | apply silent_load_json | apply silent_lift
    | apply silent_ret | apply silent_on_world
    | match goal with |- silent (if ?b then _ else _) => destruct b end ].
Qed.

Lemma silent_ensure_output_dir (cfg : Config) : silent (ensure_output_dir cfg).
Proof.
  unfold ensure_output_dir.
  apply silent_bind; [apply silent_exists|].
  intros []; simpl; [apply silent_ret | apply silent_on_world].
Qed.

(** *** Saving and showing *)

Lemma save_figure_run (self : LogVisualizer) (fig : Figure) (name : str)
    (st st' : State World) :
  _save_figure self fig name st = (Ok tt, st') ->
  trace st' = trace st
              ++ map (fun pc => Written (fst pc) (snd pc))
                     (saved_files (config self) fig name).
Proof.
  unfold _save_figure, saved_files.
  destruct (save_plots (output (config self))).
  2:{ intros H. inversion H. simpl. symmetry; apply app_nil_r. }
  revert st. induction (formats (output (config self))) as [|fmt r IH];
    simpl; intros st H.
  - inversion H. symmetry; apply app_nil_r.
  - unfold bind in H at 1. fold (output_file (config self) name fmt) in *.
    destruct (str_eqb fmt (lit "html")).
    + unfold write_html in H. rewrite write_to_run in H.
      destruct (write_file _ _ _) as [w'|e]; [|discriminate].
      apply IH in H. simpl in H. rewrite H, <- app_assoc. reflexivity.
    + destruct (str_eqb fmt (lit "png")).
      * unfold write_image in H. rewrite write_to_run in H.
        destruct (write_file _ _ _) as [w'|e]; [|discriminate].
        apply IH in H. simpl in H. rewrite H, <- app_assoc. reflexivity.
      * simpl in H. apply IH in H. exact H.
Qed.

(** A chart method that returns built its figure, wrote its files and
    showed the figure, and did nothing else that can be observed. *)
Lemma chart_run (self : LogVisualizer) (build : result Figure) (name : str)
    (st st' : State World) :
  (fig <- lift build ;; _save_figure self fig name ;; show fig) st
  = (Ok tt, st') ->
  exists fig,
    build = Ok fig
    /\ trace st' = trace st ++ chart_events (config self) fig name.
Proof.
  unfold bind at 1. unfold lift.
  destruct build as [fig|e]; [|discriminate].
  unfold bind. destruct (_save_figure self fig name st) as [[[]|e] st1] eqn:Es;
    [|discriminate].
  rewrite show_run. destruct (fig_show (world st1) fig); [|discriminate].
  intros H. inversion H; subst; simpl.
  exists fig. split; [reflexivity|].
  rewrite (save_figure_run _ _ _ _ _ Es). unfold chart_events.
  rewrite app_assoc. reflexivity.
Qed.

Lemma create_all_run (self : LogVisualizer) (st st' : State World) :
  create_all self st = (Ok tt, st') ->
  exists figs,
    chart_figures self = map Ok figs
    /\ trace st' = trace st ++ all_chart_events (config self) figs.
Proof.
  unfold create_all. intros H.
  unfold bind at 1 in H.
  destruct (create_error_distribution self st) as [[[]|e] s1] eqn:E1;
    [|discriminate].
  unfold bind at 1 in H.
  destruct (create_severity_comparison self s1) as [[[]|e] s2] eqn:E2;
    [|discriminate].
  unfold bind at 1 in H.
  destruct (create_detailed_analysis self s2) as [[[]|e] s3] eqn:E3;
    [|discriminate].
  unfold bind at 1 in H.
  destruct (create_error_histogram self s3) as [[[]|e] s4] eqn:E4;
    [|discriminate].
  apply chart_run in E1, E2, E3, E4, H.
  destruct E1 as (f1 & B1 & T1), E2 as (f2 & B2 & T2), E3 as (f3 & B3 & T3),
    E4 as (f4 & B4 & T4), H as (f5 & B5 & T5).
  exists [f1; f2; f3; f4; f5]. split.
  - unfold chart_figures. rewrite B1, B2, B3, B4, B5. reflexivity.
  - rewrite T5, T4, T3, T2, T1. unfold all_chart_events. simpl.
    rewrite app_nil_r, <- !app_assoc. reflexivity.
Qed.

(** *** The pipeline and [main] *)

Lemma report_run (cfg : Config) (st : State World) :
  report cfg st
  = (Ok tt, {| world := world st;
               trace := trace st ++ map Printed (report_lines cfg) |}).
Proof.
  unfold report, report_lines, print, emit, bind.
  destruct (save_plots (output cfg)); simpl;
    repeat rewrite <- app_assoc; reflexivity.
Qed.

Lemma pipeline_run (cfg : Config) (st st' : State World) :
  pipeline cfg st = (Ok tt, st') ->
  exists self figs,
    LogVisualizer_init cfg = Ok self
    /\ chart_figures self = map Ok figs
    /\ trace st' = trace st
                   ++ [Printed (lit "Generating visualizations...")]
                   ++ all_chart_events cfg figs
                   ++ map Printed (report_lines cfg).
Proof.
  unfold pipeline. intros H.
  unfold bind at 1 in H.
  destruct (ensure_output_dir cfg st) as [[[]|e] s1] eqn:E1; [|discriminate].
  apply silent_ensure_output_dir in E1.
  unfold bind at 1 in H. unfold lift in H.
  destruct (LogVisualizer_init cfg) as [self|e] eqn:Einit; [|discriminate].
  unfold bind at 1 in H. unfold print at 1, emit in H.
  unfold bind at 1 in H.
  match type of H with
  | context [create_all self ?s] =>
      destruct (create_all self s) as [[[]|e] s2] eqn:E2; [|discriminate]
  end.
  rewrite report_run in H. inversion H; subst; simpl.
  apply create_all_run in E2. destruct E2 as (figs & Hfigs & T2).
  destruct (LogVisualizer_init_inv _ _ Einit) as (Hcfg & _).
  exists self, figs. repeat split; try assumption.
  rewrite T2, Hcfg. simpl. rewrite E1, <- !app_assoc. reflexivity.
Qed.

Lemma main_returns_0 (flag : option str) (w : World) (st : State World) :
  main flag w = (0%Z, st) ->
  main_try (parse_args flag) (start w) = (Ok tt, st).
Proof.
  unfold main.
  destruct (main_try (parse_args flag) (start w)) as [[[]|e] s]; intros H;
    inversion H; reflexivity.
Qed.

Lemma main_try_typed (p : str) (st0 st1 : State World) (raw : RawConfig)
    (cfg : Config) :
  load_config p st0 = (Ok raw, st1) ->
  annotated raw = Some cfg ->
  main_try p st0 = pipeline cfg st1.
Proof.
  intros Hload Hann. unfold main_try, bind. rewrite Hload, Hann. reflexivity.
Qed.

(** What a run of [main] that exits with 0 leaves, for a configuration at
    its annotated types: the events are those of the five charts between
    the lines printed. *)
Lemma main_success_trace (flag : option str) (w : World) (raw : RawConfig)
    (cfg : Config) (st1 st : State World) :
  load_config (parse_args flag) (start w) = (Ok raw, st1) ->
  annotated raw = Some cfg ->
  main flag w = (0%Z, st) ->
  exists self figs,
    LogVisualizer_init cfg = Ok self
    /\ chart_figures self = map Ok figs
    /\ trace st = [Printed (lit "Generating visualizations...")]
                  ++ all_chart_events cfg figs
                  ++ map Printed (report_lines cfg).
Proof.
  intros Hload Hann Hmain.
  apply main_returns_0 in Hmain.
  rewrite (main_try_typed _ _ _ _ _ Hload Hann) in Hmain.
  apply pipeline_run in Hmain.
  destruct Hmain as (self & figs & Hinit & Hfigs & T).
  exists self, figs. repeat split; try assumption.
  rewrite T, (silent_load_config _ _ _ _ Hload). reflexivity.
Qed.

Lemma written_files_app (a b : list event) :
  written_files (a ++ b) = written_files a ++ written_files b.
Proof. apply flat_map_app. Qed.

Lemma written_files_printed (lines : list str) :
  written_files (map Printed lines) = [].
Proof. induction lines; simpl; auto. Qed.

Lemma written_files_chart_events (cfg : Config) (fig : Figure) (name : str) :
  written_files (chart_events cfg fig name) = saved_files cfg fig name.
Proof.
  unfold chart_events. rewrite written_files_app. simpl. rewrite app_nil_r.
  induction (saved_files cfg fig name) as [|[p c] r IH]; simpl; congruence.
Qed.

Lemma written_files_all_charts (cfg : Config) (figs : list Figure) :
  written_files (all_chart_events cfg figs)
  = flat_map (fun fn => saved_files cfg (fst fn) (snd fn))
             (combine figs chart_names).
Proof.
  unfold all_chart_events.
  induction (combine figs chart_names) as [|fn r IH]; simpl; [reflexivity|].
  rewrite written_files_app, written_files_chart_events, IH. reflexivity.
Qed.





(** *** An output directory that cannot be written *)







Lemma main_raises (flag : option str) (w : World) (e : exn)
    (st : State World) :
  main_try (parse_args flag) (start w) = (Raise e, st) ->
  main flag w
  = (1%Z, {| world := world st;
             trace := trace st ++ [Printed (handler_line e)] |}).
Proof. intros H. unfold main. rewrite H. reflexivity. Qed.


(** *** Files that are missing *)




Lemma main_load_raises (flag : option str) (w : World) (e : exn)
    (st : State World) :
  load_config (parse_args flag) (start w) = (Raise e, st) ->
  main flag w
  = (1%Z, {| world := world st;
             trace := trace st ++ [Printed (handler_line e)] |}).
Proof.
  intros H. apply main_raises. unfold main_try, bind. rewrite H. reflexivity.
Qed.



End Runs.

(* ===================================================================== *)
(** ** The theorems at work on the sample environments *)
(* ===================================================================== *)












(* ===================================================================== *)
(** * Further properties of the code *)
(* ===================================================================== *)

(** ** Messages *)

Lemma py_split_hd_before (sep : N) (pre r1 r2 : str) :
  hd [] (py_split sep (pre ++ sep :: r1))
  = hd [] (py_split sep (pre ++ sep :: r2)).
Proof.
  induction pre as [|c pre IH]; simpl.
  - rewrite N.eqb_refl. reflexivity.
  - destruct (N.eqb c sep); simpl; [reflexivity | rewrite IH; reflexivity].
Qed.

Lemma preprocess_msg_hd (msg : str) :
  preprocess_msg msg = Ok (py_strip (hd [] (py_split LBRACE msg))).
Proof.
  unfold preprocess_msg.
  destruct (py_split_first LBRACE msg) as (pre & rest & -> & _). reflexivity.
Qed.

Lemma py_split_hd_spaces (sep : N) (ws r : str) :
  forallb is_space ws = true ->
  forallb is_space (hd [] (py_split sep (ws ++ sep :: r))) = true.
Proof.
  induction ws as [|c ws IH]; simpl; intros H.
  - rewrite N.eqb_refl. reflexivity.
  - apply andb_true_iff in H. destruct H as [Hc H].
    destruct (N.eqb c sep); simpl; [reflexivity|].
    rewrite Hc. apply IH, H.
Qed.

Lemma py_strip_spaces (s : str) : forallb is_space s = true -> py_strip s = [].
Proof.
  intros H. unfold py_strip, py_rstrip.
  rewrite <- (app_nil_r s) at 1. rewrite (py_lstrip_spaces _ _ H). reflexivity.
Qed.

(** X1. The preprocessed form of a message depends only on the text before
    its first ['{']: two templates that agree up to a ['{'] become the same
    message, whatever follows.  A template with nothing but whitespace
    before its first ['{'] becomes the empty string. *)
Theorem preprocess_ignores_what_follows_the_brace :
  (forall pre r1 r2 : str,
      preprocess_msg (pre ++ LBRACE :: r1) = preprocess_msg (pre ++ LBRACE :: r2))
  /\ (forall ws r : str,
        forallb is_space ws = true ->
        preprocess_msg (ws ++ LBRACE :: r) = Ok []).
Proof.
  split.
  - intros pre r1 r2. rewrite !preprocess_msg_hd.
    rewrite (py_split_hd_before LBRACE pre r1 r2). reflexivity.
  - intros ws r H. rewrite preprocess_msg_hd.
    rewrite (py_strip_spaces _ (py_split_hd_spaces LBRACE ws r H)). reflexivity.
Qed.

Lemma preprocess_ignores_what_follows_the_brace_witness :
  preprocess_msg (lit "Error while receiving from {nombre_cola}")
  = preprocess_msg
      (lit "Error while receiving from {nombre_cola} The node will stop.")
  /\ preprocess_msg (lit "  {valor} is too small") = Ok [].
Proof.
  destruct preprocess_ignores_what_follows_the_brace as [Hsame Hempty].
  split.
  - exact (Hsame (lit "Error while receiving from ")
                 (lit "nombre_cola}")
                 (lit "nombre_cola} The node will stop.")).
  - exact (Hempty (lit "  ") (lit "valor} is too small") eq_refl).
Defined.

(** ** The visualizer *)

(** X2. [LogVisualizer(config)] returns exactly when both catalogs of the
    configuration are present; when [error_logs] or [warning_logs] is
    [None] it raises the [AttributeError] of [None.items()].  Preprocessing
    itself never makes it fail. *)
Theorem LogVisualizer_init_needs_both_catalogs (cfg : Config) :
  match error_logs cfg, warning_logs cfg with
  | Some errors, Some warnings =>
      exists self,
        LogVisualizer_init cfg = Ok self
        /\ config self = cfg
        /\ _preprocess_logs errors = Ok (processed_error_logs self)
        /\ _preprocess_logs warnings = Ok (processed_warning_logs self)
  | _, _ =>
      LogVisualizer_init cfg = Raise (AttributeError_NoneType (lit "items"))
  end.
Proof.
  unfold LogVisualizer_init, catalog_items.
  destruct (error_logs cfg) as [errors|]; [|reflexivity].
  destruct (preprocess_logs_total errors) as (pe & Ee & _).
  destruct (warning_logs cfg) as [warnings|]; simpl; rewrite Ee; simpl;
    [|reflexivity].
  destruct (preprocess_logs_total warnings) as (pw & Ew & _).
  rewrite Ew. simpl. eexists. repeat split; simpl; assumption.
Qed.

Lemma fold_app_concat {A} (l : list (list A)) (acc : list A) :
  fold_left (fun messages msgs => messages ++ msgs) l acc = acc ++ List.concat l.
Proof.
  revert acc. induction l as [|x r IH]; simpl; intros acc.
  - symmetry; apply app_nil_r.
  - rewrite IH, <- app_assoc. reflexivity.
Qed.

Lemma all_messages_concat (logs : catalog) :
  all_messages logs = List.concat (values logs).
Proof. unfold all_messages. rewrite fold_app_concat. reflexivity. Qed.

Lemma length_concat_sum {A} (l : list (list A)) :
  List.length (List.concat l) = list_sum (map (@List.length A) l).
Proof.
  induction l as [|x r IH]; simpl; [reflexivity|].
  rewrite length_app, IH. reflexivity.
Qed.

Lemma all_messages_length (logs : catalog) :
  List.length (all_messages logs) = severity_total logs.
Proof.
  rewrite all_messages_concat, length_concat_sum.
  unfold severity_total. rewrite py_sum_list_sum. reflexivity.
Qed.

Lemma pie_values_sum (logs : catalog) :
  wf_dict logs -> list_sum (values (category_counts logs)) = severity_total logs.
Proof.
  intros Hwf. rewrite (category_counts_wf _ Hwf), severity_total_sum.
  unfold values. rewrite map_map. reflexivity.
Qed.

Lemma rows_count_sum (severity : str) (logs : catalog) :
  list_sum (map Count (map (row_of severity) logs)) = severity_total logs.
Proof. rewrite severity_total_sum, map_map. reflexivity. Qed.

Lemma list_sum_app' (a b : list nat) :
  list_sum (a ++ b) = (list_sum a + list_sum b)%nat.
Proof. induction a as [|x a IH]; simpl; [reflexivity | rewrite IH; lia]. Qed.

(** X3. The five charts of one visualizer agree on their totals: the values
    of the pie chart add up to the ERROR bar of the severity comparison,
    which is also the number of messages in the error histogram; the
    WARNING bar is the number of messages in the warning histogram; and
    the counts of the treemap's rows add up to the two bars together. *)
Theorem charts_agree_on_totals (cfg : Config) (self : LogVisualizer) :
  LogVisualizer_init cfg = Ok self ->
  exists labels counts error_total warning_total,
    error_distribution_chart self = Pie labels counts (3 # 10)
    /\ severity_comparison_chart self
       = Bar [lit "ERROR"; lit "WARNING"]
             [error_total; warning_total] [error_total; warning_total]
             (lit "auto")
    /\ list_sum counts = error_total
    /\ List.length (all_messages (processed_error_logs self)) = error_total
    /\ List.length (all_messages (processed_warning_logs self)) = warning_total
    /\ list_sum (map Count (frame_rows (_prepare_detailed_analysis_data self)))
       = (error_total + warning_total)%nat.
Proof.
  intros Hinit.
  destruct (LogVisualizer_init_inv _ _ Hinit) as (_ & (re & _ & Epe) & _).
  destruct (preprocess_logs_result _ _ Epe) as [Hwfe _].
  do 4 eexists. split; [reflexivity|]. split; [reflexivity|].
  split; [apply pie_values_sum, Hwfe|].
  split; [apply all_messages_length|]. split; [apply all_messages_length|].
  rewrite prepared_rows, map_app, list_sum_app', !rows_count_sum. reflexivity.
Qed.

Lemma sample_visualizer_init :
  LogVisualizer_init Sample.typed_config = Ok Sample.visualizer.
Proof. vm_compute. reflexivity. Qed.

Lemma charts_agree_on_totals_witness :
  exists labels counts,
    error_distribution_chart Sample.visualizer = Pie labels counts (3 # 10)
    /\ list_sum counts = 3%nat
    /\ List.length (all_messages (processed_error_logs Sample.visualizer))
       = 3%nat.
Proof.
  destruct (charts_agree_on_totals _ _ sample_visualizer_init)
    as (labels & counts & et & wt & Hpie & Hbar & Hsum & Hlen & _).
  exists labels, counts. split; [exact Hpie|].
  split; [rewrite Hsum, <- Hlen|]; reflexivity.
Defined.

(** ** The configuration dataclasses *)

Lemma dict_set_keys_mono {V} (x k : str) (v : V) (d : dict V) :
  In x (keys d) -> In x (keys (dict_set k v d)).
Proof.
  intros H. destruct (in_keys_dec k d) as [Hin|Hout].
  - rewrite dict_set_keys_present; assumption.
  - rewrite dict_set_fresh, keys_app by assumption. apply in_or_app; auto.
Qed.

Lemma dict_set_keys_self {V} (k : str) (v : V) (d : dict V) :
  In k (keys (dict_set k v d)).
Proof.
  destruct (in_keys_dec k d) as [Hin|Hout].
  - rewrite dict_set_keys_present; assumption.
  - rewrite dict_set_fresh, keys_app by assumption.
    apply in_or_app; right; left; reflexivity.
Qed.

Lemma fold_dict_set_keys {V} (items acc : dict V) (x : str) :
  In x (keys (fold_left (fun d kv => dict_set (fst kv) (snd kv) d) items acc))
  <-> In x (keys acc) \/ In x (keys items).
Proof.
  revert acc. induction items as [|[k v] r IH]; simpl; intros acc.
  - tauto.
  - rewrite IH. split.
    + intros [H|H]; [|auto].
      apply dict_set_keys_incl in H. destruct H as [->|H]; auto.
    + intros [H|[<-|H]]; [left; apply dict_set_keys_mono, H | | auto].
      left. apply dict_set_keys_self.
Qed.

Lemma fold_dict_set_wf {V} (items acc : dict V) :
  wf_dict acc ->
  wf_dict (fold_left (fun d kv => dict_set (fst kv) (snd kv) d) items acc).
Proof.
  revert acc. induction items as [|[k v] r IH]; simpl; intros acc H;
    [exact H | apply IH, dict_set_wf, H].
Qed.

Lemma dict_of_items_keys {V} (items : dict V) (x : str) :
  In x (keys (dict_of_items items)) <-> In x (keys items).
Proof.
  unfold dict_of_items. rewrite fold_dict_set_keys. simpl. tauto.
Qed.

Lemma dict_of_items_is_wf {V} (items : dict V) : wf_dict (dict_of_items items).
Proof. apply fold_dict_set_wf. constructor. Qed.

Lemma dict_get_some_iff {V} (k : str) (d : dict V) :
  (exists v, dict_get k d = Some v) <-> In k (keys d).
Proof.
  induction d as [|[k' v'] r IH]; simpl.
  - split; [intros [v H]; discriminate | tauto].
  - destruct (str_eqb k k') eqn:E.
    + apply str_eqb_eq in E. subst. split; [auto | intros _; eauto].
    + apply str_eqb_neq in E. rewrite IH. split; [auto|].
      intros [H|H]; [congruence | exact H].
Qed.

Section Dataclasses.

Context {env : Env}.

Lemma three_fields_returns_iff (cls f1 f2 f3 : str) (members : list (str * json)) :
  NoDup [f1; f2; f3] ->
  (exists r, three_fields cls f1 f2 f3 (JObj members) = Ok r)
  <-> (forall k, In k (keys members) <-> In k [f1; f2; f3]).
Proof.
  intros Hnd. unfold three_fields.
  pose proof (dict_of_items_is_wf members) as Hwf.
  pose proof (dict_of_items_keys members) as Hkeys.
  set (d := dict_of_items members) in *.
  assert (Hlen : List.length (keys d) = List.length d) by apply length_map.
  split.
  - intros [r Hr].
    destruct (dict_get f1 d) as [a|] eqn:E1; [|discriminate].
    destruct (dict_get f2 d) as [b|] eqn:E2; [|discriminate].
    destruct (dict_get f3 d) as [c|] eqn:E3; [|discriminate].
    destruct (Nat.eqb_spec (List.length d) 3) as [H3|]; [|discriminate].
    assert (Hincl : incl [f1; f2; f3] (keys d)).
    { intros x [<-|[<-|[<-|[]]]]; apply dict_get_some_iff; eauto. }
    assert (Hback : incl (keys d) [f1; f2; f3]).
    { apply NoDup_length_incl; [exact Hnd | simpl; lia | exact Hincl]. }
    intros k. rewrite <- Hkeys. split; [apply Hback | apply Hincl].
  - intros Hsame.
    assert (Hin : forall f, In f [f1; f2; f3] -> exists v, dict_get f d = Some v).
    { intros f Hf. apply dict_get_some_iff, Hkeys, Hsame, Hf. }
    destruct (Hin f1) as [a ->]; [simpl; auto|].
    destruct (Hin f2) as [b ->]; [simpl; auto|].
    destruct (Hin f3) as [c ->]; [simpl; auto|].
    assert (H3 : List.length d = 3%nat).
    { rewrite <- Hlen. apply Nat.le_antisymm.
      - change 3%nat with (List.length [f1; f2; f3]).
        apply NoDup_incl_length; [exact Hwf|].
        intros x Hx. apply Hsame, Hkeys, Hx.
      - change 3%nat with (List.length [f1; f2; f3]).
        apply NoDup_incl_length; [exact Hnd|].
        intros x Hx. apply Hkeys, Hsame, Hx. }
    rewrite H3. simpl. eauto.
Qed.

Lemma three_fields_raises_TypeError (cls f1 f2 f3 : str) (v : json) :
  (exists r, three_fields cls f1 f2 f3 v = Ok r)
  \/ three_fields cls f1 f2 f3 v = Raise (TypeError cls v).
Proof.
  unfold three_fields. destruct v; auto.
  destruct (dict_get f1 _); auto. destruct (dict_get f2 _); auto.
  destruct (dict_get f3 _); auto. destruct (Nat.eqb _ 3); eauto.
Qed.

Lemma field_names_distinct :
  NoDup [lit "save_plots"; lit "output_dir"; lit "formats"]
  /\ NoDup [lit "colors"; lit "titles"; lit "labels"].
Proof. split; repeat constructor; simpl; intuition discriminate. Qed.

(** X4. [OutputConfig] and [VisualizationConfig], called with the members
    of [d] as keyword arguments, return exactly when [d] is an object whose
    member names are the three fields of the dataclass, no more and no
    fewer; on every other value they raise [TypeError]. *)
Theorem dataclasses_accept_exactly_their_fields (members : list (str * json)) :
  ((exists c, new_OutputConfig (JObj members) = Ok c)
   <-> (forall k, In k (keys members)
                  <-> In k [lit "save_plots"; lit "output_dir"; lit "formats"]))
  /\ ((exists c, new_VisualizationConfig (JObj members) = Ok c)
      <-> (forall k, In k (keys members)
                     <-> In k [lit "colors"; lit "titles"; lit "labels"]))
  /\ (forall v,
        (exists c, new_OutputConfig v = Ok c)
        \/ new_OutputConfig v = Raise (TypeError (lit "OutputConfig") v))
  /\ (forall v,
        (exists c, new_VisualizationConfig v = Ok c)
        \/ new_VisualizationConfig v
           = Raise (TypeError (lit "VisualizationConfig") v)).
Proof.
  destruct field_names_distinct as [Ho Hv].
  unfold new_OutputConfig, new_VisualizationConfig.
  split; [split|split; [split|split]].
  - intros [c Hc]. apply (three_fields_returns_iff (lit "OutputConfig") _ _ _ _ Ho).
    destruct (three_fields _ _ _ _ _) as [r|]; [eauto | discriminate].
  - intros H. apply (three_fields_returns_iff (lit "OutputConfig") _ _ _ _ Ho) in H.
    destruct H as [[[a b] c] ->]. simpl. eauto.
  - intros [c Hc].
    apply (three_fields_returns_iff (lit "VisualizationConfig") _ _ _ _ Hv).
    destruct (three_fields _ _ _ _ _) as [r|]; [eauto | discriminate].
  - intros H.
    apply (three_fields_returns_iff (lit "VisualizationConfig") _ _ _ _ Hv) in H.
    destruct H as [[[a b] c] ->]. simpl. eauto.
  - intros v.
    destruct (three_fields_raises_TypeError (lit "OutputConfig")
                (lit "save_plots") (lit "output_dir") (lit "formats") v)
      as [[[[a b] c] ->]| ->]; simpl; eauto.
  - intros v.
    destruct (three_fields_raises_TypeError (lit "VisualizationConfig")
                (lit "colors") (lit "titles") (lit "labels") v)
      as [[[[a b] c] ->]| ->]; simpl; eauto.
Qed.

End Dataclasses.

(** ** Saving, in full *)

Section Saving.

Context {env : Env}.

Local Open Scope py_scope.

Lemma saved_files_supported (cfg : Config) (fig : Figure) (name : str) :
  saved_files cfg fig name
  = if save_plots (output cfg) then
      map (fun fmt =>
             (output_file cfg name fmt,
              if str_eqb fmt (lit "html") then to_html fig else to_image fig))
          (filter supported (formats (output cfg)))
    else [].
Proof.
  unfold saved_files. destruct (save_plots (output cfg)); [|reflexivity].
  induction (formats (output cfg)) as [|fmt r IH]; simpl; [reflexivity|].
  unfold supported at 1.
  destruct (str_eqb fmt (lit "html")) eqn:Eh; simpl.
  - rewrite Eh, IH. reflexivity.
  - destruct (str_eqb fmt (lit "png")); simpl; [rewrite Eh|]; rewrite IH;
      reflexivity.
Qed.

(** X5. When [_save_figure] returns it has written, in the order of the
    configured formats, one file [output_dir/name.fmt] for each format that
    is [html] or [png] (as often as the format is listed), and nothing for
    any other format, which is skipped without an error; with [save_plots]
    false it has written nothing.  It shows and prints nothing. *)
Theorem save_figure_writes_supported_formats (self : LogVisualizer)
    (fig : Figure) (name : str) (st st' : State World) :
  _save_figure self fig name st = (Ok tt, st') ->
  trace st'
  = trace st
    ++ map (fun fmt =>
              Written
                (path_str (path_join (mk_path (output_dir (output (config self))))
                                     (name ++ lit "." ++ fmt)))
                (if str_eqb fmt (lit "html") then to_html fig else to_image fig))
           (if save_plots (output (config self))
            then filter supported (formats (output (config self)))
            else []).
Proof.
  intros H. rewrite (save_figure_run _ _ _ _ _ H), saved_files_supported.
  destruct (save_plots (output (config self))); [|reflexivity].
  rewrite map_map. reflexivity.
Qed.

Lemma shown_figures_app (a b : list event) :
  shown_figures (a ++ b) = shown_figures a ++ shown_figures b.
Proof. apply flat_map_app. Qed.

Lemma printed_lines_app (a b : list event) :
  printed_lines (a ++ b) = printed_lines a ++ printed_lines b.
Proof. apply flat_map_app. Qed.

Lemma printed_lines_printed (lines : list str) :
  printed_lines (map Printed lines) = lines.
Proof. induction lines; simpl; congruence. Qed.

Lemma only_files_written (files : list (str * bytes)) :
  shown_figures (map (fun pc => Written (fst pc) (snd pc)) files) = []
  /\ printed_lines (map (fun pc => Written (fst pc) (snd pc)) files) = [].
Proof. induction files as [|pc r [IH1 IH2]]; simpl; auto. Qed.

Lemma written_only_files (files : list (str * bytes)) :
  written_files (map (fun pc => Written (fst pc) (snd pc)) files) = files.
Proof. induction files as [|[p c] r IH]; simpl; congruence. Qed.

Lemma save_figure_raise_run (self : LogVisualizer)
    (fig : Figure) (name : str) (st st' : State World) (e : exn) :
  _save_figure self fig name st = (Raise e, st') ->
  exists done rest,
    saved_files (config self) fig name = done ++ rest
    /\ rest <> []
    /\ trace st' = trace st ++ map (fun pc => Written (fst pc) (snd pc)) done.
Proof.
  unfold _save_figure, saved_files.
  destruct (save_plots (output (config self))); [|discriminate].
  revert st. induction (formats (output (config self))) as [|fmt r IH];
    cbn [for_each flat_map]; intros st H; [discriminate|].
  unfold bind at 1 in H. fold (output_file (config self) name fmt) in *.
  destruct (str_eqb fmt (lit "html")).
  - unfold write_html in H. rewrite write_to_run in H.
    destruct (write_file _ _ _) as [w'|e'].
    + apply IH in H. destruct H as (done & rest & E & Hrest & T).
      exists ((output_file (config self) name fmt, to_html fig) :: done), rest.
      rewrite E. repeat split; [assumption|].
      rewrite T. simpl. rewrite <- app_assoc. reflexivity.
    + inversion H; subst. exists [], ((output_file (config self) name fmt, to_html fig)
        :: flat_map (fun fmt0 =>
             if str_eqb fmt0 (lit "html")
             then [(output_file (config self) name fmt0, to_html fig)]
             else if str_eqb fmt0 (lit "png")
                  then [(output_file (config self) name fmt0, to_image fig)]
                  else []) r).
      repeat split; [discriminate | simpl; symmetry; apply app_nil_r].
  - destruct (str_eqb fmt (lit "png")).
    + unfold write_image in H. rewrite write_to_run in H.
      destruct (write_file _ _ _) as [w'|e'].
      * apply IH in H. destruct H as (done & rest & E & Hrest & T).
        exists ((output_file (config self) name fmt, to_image fig) :: done), rest.
        rewrite E. repeat split; [assumption|].
        rewrite T. simpl. rewrite <- app_assoc. reflexivity.
      * inversion H; subst. exists [], ((output_file (config self) name fmt, to_image fig)
          :: flat_map (fun fmt0 =>
               if str_eqb fmt0 (lit "html")
               then [(output_file (config self) name fmt0, to_html fig)]
               else if str_eqb fmt0 (lit "png")
                    then [(output_file (config self) name fmt0, to_image fig)]
                    else []) r).
        repeat split; [discriminate | simpl; symmetry; apply app_nil_r].
    + unfold ret in H. apply IH in H. exact H.
Qed.

(** X6. When [_save_figure] raises, the files of the formats before the
    failing one stay written: what it has written is a proper prefix of
    the files it would have written, and nothing is rolled back. *)
Theorem save_figure_failure_keeps_earlier_files (self : LogVisualizer)
    (fig : Figure) (name : str) (st st' : State World) (e : exn) :
  _save_figure self fig name st = (Raise e, st') ->
  exists done rest,
    saved_files (config self) fig name = done ++ rest
    /\ rest <> []
    /\ trace st' = trace st ++ map (fun pc => Written (fst pc) (snd pc)) done
    /\ written_files (trace st') = written_files (trace st) ++ done
    /\ shown_figures (trace st') = shown_figures (trace st).
Proof.
  intros H.
  destruct (save_figure_raise_run _ _ _ _ _ _ H) as (done & rest & E & Hrest & T).
  exists done, rest. repeat split; try assumption.
  - rewrite T, written_files_app, written_only_files. reflexivity.
  - rewrite T, shown_figures_app, (proj1 (only_files_written done)).
    apply app_nil_r.
Qed.

Lemma chart_failure (self : LogVisualizer) (build : result Figure) (name : str)
    (st st' : State World) (e : exn) :
  (fig <- lift build ;; _save_figure self fig name ;; show fig) st
  = (Raise e, st') ->
  exists files, trace st' = trace st
                            ++ map (fun pc => Written (fst pc) (snd pc)) files.
Proof.
  unfold bind at 1. unfold lift. destruct build as [fig|e0].
  - unfold bind. destruct (_save_figure self fig name st) as [[[]|e1] s1] eqn:Es.
    + rewrite show_run. destruct (fig_show (world s1) fig); [discriminate|].
      intros H. inversion H; subst.
      exists (saved_files (config self) fig name).
      apply (save_figure_run _ _ _ _ _ Es).
    + intros H. inversion H; subst.
      destruct (save_figure_raise_run self fig name st st' e Es)
        as (done & _ & _ & _ & T). exists done. exact T.
  - intros H. inversion H; subst. exists []. simpl. symmetry; apply app_nil_r.
Qed.

(** X7. A chart method that raises has shown and printed nothing: all it
    may leave behind are files it wrote before the failure (its own, when
    the save or the display after it failed). *)
Theorem failed_chart_shows_nothing (self : LogVisualizer)
    (op : LogVisualizer -> M World unit) (st st' : State World) (e : exn) :
  In op chart_operations ->
  op self st = (Raise e, st') ->
  shown_figures (trace st') = shown_figures (trace st)
  /\ printed_lines (trace st') = printed_lines (trace st)
  /\ exists files,
       trace st' = trace st ++ map (fun pc => Written (fst pc) (snd pc)) files.
Proof.
  intros Hin H.
  assert (Hfiles : exists files,
             trace st' = trace st
                         ++ map (fun pc => Written (fst pc) (snd pc)) files).
  { unfold chart_operations in Hin. simpl in Hin.
    destruct Hin as [<-|[<-|[<-|[<-|[<-|[]]]]]];
      eapply chart_failure; exact H. }
  destruct Hfiles as (files & T).
  destruct (only_files_written files) as [Hs Hp].
  rewrite T, shown_figures_app, printed_lines_app, Hs, Hp, !app_nil_r.
  repeat split. exists files. reflexivity.
Qed.

(** *** What is printed *)








Lemma saved_files_unsupported (cfg : Config) (fig : Figure) (name : str) :
  requests_file (formats (output cfg)) = false ->
  saved_files cfg fig name = [].
Proof.
  intros Hr. unfold saved_files, requests_file in *.
  destruct (save_plots (output cfg)); [|reflexivity].
  induction (formats (output cfg)) as [|fmt r IH]; simpl in *; [reflexivity|].
  apply orb_false_iff in Hr. destruct Hr as [Hfmt Hr].
  apply orb_false_iff in Hfmt. destruct Hfmt as [-> ->]. apply IH, Hr.
Qed.

(** X9. With [save_plots] true and no configured format equal to [html] or
    [png] (an empty list, or only formats the code does not know), a run
    that exits with 0 has written no file at all and still prints that the
    graphs have been saved in the output directory, with the configured
    formats as the generated ones. *)
Theorem report_claims_saved_without_files (flag : option str) (w : World)
    (raw : RawConfig) (cfg : Config) (st1 st : State World) :
  load_config (parse_args flag) (start w) = (Ok raw, st1) ->
  annotated raw = Some cfg ->
  save_plots (output cfg) = true ->
  requests_file (formats (output cfg)) = false ->
  main flag w = (0%Z, st) ->
  written_files (trace st) = []
  /\ In (NL ++ lit "Graphs have been saved in: " ++ output_dir (output cfg))
        (printed_lines (trace st))
  /\ In (lit "Generated formats: "
          ++ py_join (lit ", ") (formats (output cfg)))
        (printed_lines (trace st)).
Proof.
  intros Hload Hann Hsave Hreq Hmain.
  destruct (main_success_trace _ _ _ _ _ _ Hload Hann Hmain)
    as (self & figs & _ & _ & T).
  rewrite T. split; [|split].
  - rewrite !written_files_app, written_files_printed,
      written_files_all_charts. simpl. rewrite app_nil_r.
    induction (combine figs chart_names) as [|fn r IH]; simpl; [reflexivity|].
    rewrite (saved_files_unsupported _ _ _ Hreq). exact IH.
  - rewrite !printed_lines_app, printed_lines_printed.
    apply in_or_app; right. apply in_or_app; right.
    unfold report_lines. rewrite Hsave. simpl. auto.
  - rewrite !printed_lines_app, printed_lines_printed.
    apply in_or_app; right. apply in_or_app; right.
    unfold report_lines. rewrite Hsave. simpl. auto.
Qed.

(** X10. A configuration document that is an object without the member
    [log_patterns_file] makes [load_config] raise [KeyError] before any
    other file is opened; [main] reports it through the generic handler,
    as "Unexpected error: " followed by the quoted key, and exits with 1. *)
Theorem missing_config_key_is_unexpected_error (flag : option str)
    (w w' : World) (members : list (str * json)) :
  config_dir_ready w (parse_args flag) w' ->
  json_load_file w' (JStr (parse_args flag)) = Ok (JObj members) ->
  dict_get (lit "log_patterns_file") (dict_of_items members) = None ->
  load_config (parse_args flag) (start w)
  = (Raise (KeyError (lit "log_patterns_file")), start w')
  /\ main flag w
     = (1%Z,
        {| world := w';
           trace := [Printed (lit "Unexpected error: "
                              ++ py_repr (lit "log_patterns_file"))] |}).
Proof.
  intros Hdir Hdoc Hkey.
  assert (Hload : load_config (parse_args flag) (start w)
                  = (Raise (KeyError (lit "log_patterns_file")), start w')).
  { destruct Hdir as [[Hex ->]|[Hex Hmk]];
      unfold load_config, bind, exists_, mkdir, on_world, load_json, ret, lift,
        start;
      simpl; rewrite Hex; simpl; [|rewrite Hmk; simpl];
      rewrite Hdoc; unfold py_getitem; rewrite Hkey; reflexivity. }
  split; [exact Hload|].
  rewrite (main_load_raises _ _ _ _ Hload). reflexivity.
Qed.

End Saving.

(** ** The standalone script against the configuration-driven code *)

Lemma shape_keys (logs : catalog) : map fst (shape logs) = keys logs.
Proof. unfold shape, keys. rewrite map_map. reflexivity. Qed.

Lemma same_shape (logs out : catalog) :
  Forall2 (fun kv kv' =>
             fst kv' = fst kv /\ List.length (snd kv') = List.length (snd kv))
          logs out ->
  shape out = shape logs.
Proof.
  unfold shape. induction 1 as [|[k v] [k' v'] ? ? [E1 E2] _ IH]; simpl in *;
    congruence.
Qed.

Lemma preprocess_logs_shape (logs out : catalog) :
  wf_dict logs -> _preprocess_logs logs = Ok out -> shape out = shape logs.
Proof.
  intros Hwf E. destruct (preprocess_logs_wf logs Hwf) as (out' & E' & H).
  rewrite E in E'. inversion E'; subst out'. apply same_shape.
  clear - H. induction H as [|kv kv' ? ? [E1 E2] _ IH]; constructor; auto.
  split; [exact E1 | exact (Forall2_length_eq _ _ _ E2)].
Qed.

Lemma list_comp_prefix (msgs : list str) :
  exists outs,
    list_comp Legacy.prefix_of_msg msgs = Ok outs
    /\ List.length outs = List.length msgs.
Proof.
  induction msgs as [|m r (outs & E & H)]; simpl.
  - exists []. split; reflexivity.
  - unfold Legacy.prefix_of_msg at 1.
    destruct (py_split_first LBRACE m) as (pre & rest & -> & _). simpl.
    rewrite E. simpl. exists (pre :: outs). simpl. split; congruence.
Qed.

Lemma legacy_processed_shape (logs : catalog) :
  wf_dict logs ->
  exists out, Legacy.processed logs = Ok out /\ shape out = shape logs.
Proof.
  intros Hwf.
  destruct (dict_comp_fresh (list_comp Legacy.prefix_of_msg)
              (fun v w => List.length w = List.length v) logs [])
    as (out & E & H).
  - exact Hwf.
  - intros kv _. apply list_comp_prefix.
  - exists out. split; [exact E | apply same_shape, H].
Qed.

Lemma category_counts_shape (logs : catalog) :
  category_counts logs = dict_of_items (shape logs).
Proof. reflexivity. Qed.

Lemma severity_total_shape (logs : catalog) :
  severity_total logs = list_sum (map snd (shape logs)).
Proof.
  rewrite severity_total_sum. unfold shape. rewrite map_map. reflexivity.
Qed.

(** X11. On the same catalogs, the pie chart and the bar chart of the
    standalone script carry the data of the configuration-driven ones: the
    same labels and counts, the same two totals.  (The script splits at
    ['{'] without stripping, which changes no count.) *)
Theorem legacy_pie_and_bars_agree (cfg : Config) (self : LogVisualizer)
    (errors warnings : catalog) :
  error_logs cfg = Some errors ->
  warning_logs cfg = Some warnings ->
  wf_dict errors -> wf_dict warnings ->
  LogVisualizer_init cfg = Ok self ->
  Legacy.error_distribution_pie errors = error_distribution_chart self
  /\ Legacy.severity_bar errors warnings = Ok (severity_comparison_chart self).
Proof.
  intros He Hw Hwfe Hwfw Hinit.
  destruct (LogVisualizer_init_inv _ _ Hinit)
    as (_ & (re & Ere & Epe) & (rw & Erw & Epw)).
  rewrite He in Ere. rewrite Hw in Erw.
  inversion Ere; subst re. inversion Erw; subst rw.
  pose proof (preprocess_logs_shape _ _ Hwfe Epe) as She.
  pose proof (preprocess_logs_shape _ _ Hwfw Epw) as Shw.
  split.
  - unfold Legacy.error_distribution_pie, error_distribution_chart.
    rewrite !category_counts_shape, She. reflexivity.
  - unfold Legacy.severity_bar, severity_comparison_chart.
    destruct (legacy_processed_shape _ Hwfe) as (le & -> & Sle).
    destruct (legacy_processed_shape _ Hwfw) as (lw & -> & Slw).
    simpl. rewrite !severity_total_shape, Sle, Slw, She, Shw. reflexivity.
Qed.

Lemma wf_catalog_C : wf_dict Sample.catalog_C.
Proof. unfold wf_dict; simpl. repeat constructor; simpl; tauto. Qed.

Lemma legacy_pie_and_bars_agree_witness :
  Legacy.error_distribution_pie Sample.catalog_AB
  = error_distribution_chart Sample.visualizer
  /\ Legacy.severity_bar Sample.catalog_AB Sample.catalog_C
     = Ok (severity_comparison_chart Sample.visualizer).
Proof.
  exact (legacy_pie_and_bars_agree Sample.typed_config Sample.visualizer
           Sample.catalog_AB Sample.catalog_C eq_refl eq_refl
           wf_catalog_AB wf_catalog_C sample_visualizer_init).
Defined.

(** *** The histograms *)

Lemma list_comp_of_preprocessed (msgs outs : list str) :
  Forall2 preprocessed msgs outs -> list_comp preprocess_msg msgs = Ok outs.
Proof.
  induction 1 as [|m o ? ? Hm _ IH]; simpl; [reflexivity|].
  apply preprocessed_iff in Hm. rewrite Hm. simpl. rewrite IH. reflexivity.
Qed.

Lemma extend_processed_run (logs out : catalog) (acc : list str) :
  Forall2 (fun kv kv' =>
             fst kv' = fst kv /\ Forall2 preprocessed (snd kv) (snd kv'))
          logs out ->
  Legacy.extend_processed (values logs) acc
  = Ok (acc ++ List.concat (values out)).
Proof.
  intros H. revert acc.
  induction H as [|kv kv' ? ? [_ Hm] _ IH]; simpl; intros acc.
  - rewrite app_nil_r. reflexivity.
  - rewrite (list_comp_of_preprocessed _ _ Hm). simpl.
    rewrite IH, <- app_assoc. reflexivity.
Qed.

(** X12. The messages the standalone script puts in a histogram are those
    the configuration-driven visualizer puts in it for the same catalog:
    the same preprocessed messages in the same order. *)
Theorem legacy_histogram_messages_agree (logs : catalog) :
  wf_dict logs ->
  exists processed,
    _preprocess_logs logs = Ok processed
    /\ Legacy.extend_processed (values logs) [] = Ok (all_messages processed).
Proof.
  intros Hwf. destruct (preprocess_logs_wf logs Hwf) as (out & E & H).
  exists out. split; [exact E|].
  rewrite (extend_processed_run _ _ [] H), all_messages_concat. reflexivity.
Qed.

Lemma wf_legacy_error_logs : wf_dict Legacy.error_logs.
Proof.
  unfold wf_dict; simpl. repeat constructor; simpl; intuition discriminate.
Qed.

Lemma legacy_histogram_messages_agree_witness :
  exists processed,
    _preprocess_logs Legacy.error_logs = Ok processed
    /\ Legacy.extend_processed (values Legacy.error_logs) []
       = Ok (all_messages processed).
Proof.
  exact (legacy_histogram_messages_agree Legacy.error_logs wf_legacy_error_logs).
Defined.

(** *** The table of the treemap *)

Lemma combine_app_same {A B} (a b : list A) (a' b' : list B) :
  List.length a = List.length a' ->
  combine (a ++ b) (a' ++ b') = combine a a' ++ combine b b'.
Proof.
  revert a'. induction a as [|x a IH]; intros [|y a'] H; simpl in *;
    try discriminate; [reflexivity|].
  rewrite IH by congruence. reflexivity.
Qed.

Lemma combine_repeat {A B} (x : A) (y : B) (n : nat) :
  combine (repeat x n) (repeat y n) = repeat (x, y) n.
Proof. induction n as [|n IH]; simpl; congruence. Qed.

Lemma extend_columns_run (severity : str) (logs : catalog)
    (c1 : list str) (c2 : list nat) (c3 : list str) :
  Legacy.extend_columns severity logs (c1, c2, c3)
  = (c1 ++ flat_map (fun kn => repeat (fst kn) (snd kn)) (shape logs),
     c2 ++ flat_map (fun kn => repeat (snd kn) (snd kn)) (shape logs),
     c3 ++ flat_map (fun kn => repeat severity (snd kn)) (shape logs)).
Proof.
  unfold Legacy.extend_columns. revert c1 c2 c3.
  induction logs as [|kv r IH]; simpl; intros c1 c2 c3.
  - rewrite !app_nil_r. reflexivity.
  - rewrite IH, <- !app_assoc. reflexivity.
Qed.

Lemma flat_repeat_length {A} (f : str * nat -> A) (sh : list (str * nat)) :
  List.length (flat_map (fun kn => repeat (f kn) (snd kn)) sh)
  = list_sum (map snd sh).
Proof.
  induction sh as [|kn r IH]; simpl; [reflexivity|].
  rewrite length_app, repeat_length, IH. reflexivity.
Qed.

Lemma columns_to_rows (severity : str) (sh : list (str * nat)) :
  map (fun r => {| Category := fst (fst r);
                   Count := snd (fst r);
                   Severity := snd r |})
      (combine (combine (flat_map (fun kn => repeat (fst kn) (snd kn)) sh)
                        (flat_map (fun kn => repeat (snd kn) (snd kn)) sh))
               (flat_map (fun kn => repeat severity (snd kn)) sh))
  = flat_map (fun kn => repeat {| Category := fst kn;
                                  Count := snd kn;
                                  Severity := severity |} (snd kn)) sh.
Proof.
  induction sh as [|kn r IH]; simpl; [reflexivity|].
  rewrite !combine_app_same, map_app, IH.
  - rewrite !combine_repeat, map_repeat. reflexivity.
  - rewrite length_combine, !repeat_length. apply Nat.min_id.
  - rewrite !repeat_length. reflexivity.
Qed.

Lemma rows_per_message_shape (severity : str) (logs : catalog) :
  Legacy.rows_per_message severity logs
  = flat_map (fun kn => repeat {| Category := fst kn;
                                  Count := snd kn;
                                  Severity := severity |} (snd kn))
             (shape logs).
Proof.
  unfold Legacy.rows_per_message, shape.
  induction logs as [|kv r IH]; simpl; [reflexivity|].
  rewrite IH. reflexivity.
Qed.

Lemma rows_per_message_length (severity : str) (logs : catalog) :
  List.length (Legacy.rows_per_message severity logs) = severity_total logs.
Proof.
  rewrite rows_per_message_shape, severity_total_shape.
  apply (flat_repeat_length
           (fun kn => {| Category := fst kn; Count := snd kn;
                         Severity := severity |})).
Qed.

(** X13. The table the standalone script gives its treemap is always built
    (its three columns have the same length) and has one row per message,
    not one per category: a category with [n] messages has [n] rows, each
    with count [n], errors first.  It has as many rows as there are
    messages, where the table of the configuration-driven code has as many
    rows as there are categories. *)
Theorem legacy_table_has_a_row_per_message (errors warnings : catalog) :
  wf_dict errors -> wf_dict warnings ->
  exists rows,
    Legacy.detailed_frame errors warnings
    = Ok (RowsFrame [lit "Categor" ++ Legacy.i_acute ++ lit "a";
                     lit "Cantidad"; lit "Severidad"] rows)
    /\ rows = flat_map (fun kv =>
                          repeat {| Category := fst kv;
                                    Count := List.length (snd kv);
                                    Severity := lit "ERROR" |}
                                 (List.length (snd kv))) errors
              ++ flat_map (fun kv =>
                             repeat {| Category := fst kv;
                                       Count := List.length (snd kv);
                                       Severity := lit "WARNING" |}
                                    (List.length (snd kv))) warnings
    /\ List.length rows
       = (severity_total errors + severity_total warnings)%nat
    /\ forall cfg,
         List.length
           (frame_rows
              (_prepare_detailed_analysis_data
                 {| config := cfg;
                    processed_error_logs := errors;
                    processed_warning_logs := warnings |}))
         = (List.length errors + List.length warnings)%nat.
Proof.
  intros Hwfe Hwfw.
  exists (Legacy.rows_per_message (lit "ERROR") errors
          ++ Legacy.rows_per_message (lit "WARNING") warnings).
  split; [|split; [reflexivity|split]].
  - unfold Legacy.detailed_frame.
    destruct (legacy_processed_shape _ Hwfe) as (le & -> & Sle).
    destruct (legacy_processed_shape _ Hwfw) as (lw & -> & Slw).
    simpl. rewrite !extend_columns_run, Sle, Slw. simpl.
    unfold Legacy.DataFrame_of_columns.
    rewrite !length_app, !flat_repeat_length, !Nat.eqb_refl. simpl.
    rewrite !combine_app_same, map_app, !columns_to_rows,
      !rows_per_message_shape; [reflexivity | |].
    + rewrite length_combine, !flat_repeat_length. apply Nat.min_id.
    + rewrite !flat_repeat_length. reflexivity.
  - rewrite length_app, !rows_per_message_length. reflexivity.
  - intros cfg. rewrite prepared_rows, length_app, !length_map. reflexivity.
Qed.

Lemma legacy_table_has_a_row_per_message_witness :
  exists rows,
    Legacy.detailed_frame Sample.catalog_AB Sample.catalog_C
    = Ok (RowsFrame [lit "Categor" ++ Legacy.i_acute ++ lit "a";
                     lit "Cantidad"; lit "Severidad"] rows)
    /\ List.length rows = 4%nat.
Proof.
  destruct (legacy_table_has_a_row_per_message
              Sample.catalog_AB Sample.catalog_C wf_catalog_AB wf_catalog_C)
    as (rows & Hframe & _ & Hlen & _).
  exists rows. split; [exact Hframe | exact Hlen].
Defined.

(** ** The standalone script as a whole *)

Section ScriptRuns.

Context {env : Env}.

Local Open Scope py_scope.

Lemma for_each_print (lines : list str) (st : State World) :
  for_each lines print st
  = (Ok tt, {| world := world st; trace := trace st ++ map Printed lines |}).
Proof.
  revert st. induction lines as [|l r IH]; intros st; simpl.
  - rewrite app_nil_r. destruct st; reflexivity.
  - unfold bind, print at 1, emit. rewrite IH. simpl.
    rewrite <- app_assoc. reflexivity.
Qed.

Lemma prints_after_no_figure (lines : list str) :
  shows_then_prints 0 lines (for_each lines print).
Proof.
  intros st. rewrite for_each_print. exists []. split; reflexivity.
Qed.

Lemma shows_one_more (n : nat) (lines : list str) (build : result Figure)
    (k : M World unit) :
  shows_then_prints n lines k ->
  shows_then_prints (S n) lines ((fig <- lift build ;; show fig) ;; k).
Proof.
  intros Hk st. unfold bind at 1. unfold bind at 1. unfold lift.
  destruct build as [fig|e].
  - rewrite show_run. destruct (fig_show (world st) fig) as [w'|e].
    + specialize (Hk {| world := w'; trace := trace st ++ [Shown fig] |}).
      destruct (k _) as [[[]|e] st'].
      * destruct Hk as (figs & Hlen & T). exists (fig :: figs).
        split; [simpl; congruence|]. rewrite T. simpl.
        rewrite <- app_assoc. reflexivity.
      * destruct Hk as (figs & Hlen & T). exists (fig :: figs).
        split; [simpl; lia|]. rewrite T. simpl.
        rewrite <- app_assoc. reflexivity.
    + exists []. split; [simpl; lia | simpl; symmetry; apply app_nil_r].
  - exists []. split; [simpl; lia | simpl; symmetry; apply app_nil_r].
Qed.

(** X14. The standalone script never writes a file and has no handler: a
    run of its [main] that returns has shown five figures and then printed
    the six lines of its summary; a run in which a chart raises ends there,
    having shown only the figures before it and printed nothing. *)
Theorem legacy_main_shows_then_prints (error_logs warning_logs : catalog)
    (st : State World) :
  match Legacy.main error_logs warning_logs st with
  | (Ok _, st') =>
      exists figs,
        List.length figs = 5%nat
        /\ trace st' = trace st ++ map Shown figs
                       ++ map Printed Legacy.summary_lines
  | (Raise _, st') =>
      exists figs,
        (List.length figs < 5)%nat
        /\ trace st' = trace st ++ map Shown figs
  end.
Proof.
  revert st. change (shows_then_prints 5 Legacy.summary_lines
                       (Legacy.main error_logs warning_logs)).
  unfold Legacy.main.
  repeat apply shows_one_more. apply prints_after_no_figure.
Qed.

End ScriptRuns.

(** ** A run that fails part of the way *)

Section PartialRuns.

Context {env : Env}.

Local Open Scope py_scope.

Lemma shown_chart_events (cfg : Config) (fig : Figure) (name : str) :
  shown_figures (chart_events cfg fig name) = [fig].
Proof.
  unfold chart_events. rewrite shown_figures_app.
  rewrite (proj1 (only_files_written _)). reflexivity.
Qed.

Lemma last_chart_keeps_earlier (self : LogVisualizer) (build : result Figure)
    (name : str) :
  keeps_earlier_charts [build]
    (fig <- lift build ;; _save_figure self fig name ;; show fig).
Proof.
  intros st st' e H. apply chart_failure in H. destruct H as (files & T).
  exists []. split; [simpl; lia|]. split; [reflexivity|].
  rewrite T, shown_figures_app, (proj1 (only_files_written _)). reflexivity.
Qed.

Lemma one_more_chart_keeps_earlier (self : LogVisualizer)
    (build : result Figure) (name : str) (builds : list (result Figure))
    (k : M World unit) :
  keeps_earlier_charts builds k ->
  keeps_earlier_charts (build :: builds)
    ((fig <- lift build ;; _save_figure self fig name ;; show fig) ;; k).
Proof.
  intros Hk st st' e H. unfold bind at 1 in H.
  match type of H with
  | context [bind (lift build) ?f st] =>
      destruct (bind (lift build) f st) as [[[]|e1] s1] eqn:E1
  end.
  - apply chart_run in E1. destruct E1 as (fig & -> & T1).
    destruct (Hk _ _ _ H) as (figs & Hlen & Hfigs & Hshown).
    exists (fig :: figs). split; [simpl; lia|]. split.
    + simpl. rewrite Hfigs. reflexivity.
    + rewrite Hshown, T1, shown_figures_app, shown_chart_events,
        <- app_assoc. reflexivity.
  - inversion H; subst. apply chart_failure in E1. destruct E1 as (files & T).
    exists []. split; [simpl; lia|]. split; [reflexivity|].
    rewrite T, shown_figures_app, (proj1 (only_files_written _)). reflexivity.
Qed.

(** X15. When one of the five chart calls of [main] raises, the charts
    before it have been built and shown, in [main]'s order, and none after
    it: the figures shown by the failed sequence are the first ones of the
    five, fewer than five. *)
Theorem failed_run_keeps_earlier_charts (self : LogVisualizer)
    (st st' : State World) (e : exn) :
  create_all self st = (Raise e, st') ->
  exists figs,
    (List.length figs < 5)%nat
    /\ map Ok figs = firstn (List.length figs) (chart_figures self)
    /\ shown_figures (trace st') = shown_figures (trace st) ++ figs.
Proof.
  revert st st' e.
  change (keeps_earlier_charts (chart_figures self) (create_all self)).
  unfold create_all, chart_figures.
  repeat apply one_more_chart_keeps_earlier. apply last_chart_keeps_earlier.
Qed.

End PartialRuns.

(* ===================================================================== *)
(** ** The further theorems at work on sample data *)
(* ===================================================================== *)

Lemma save_figure_writes_supported_formats_witness :
  map fst
    (written_files
       (trace
          (snd (@_save_figure Sample.env_ok
                  (Sample2.with_formats [lit "svg"; lit "html"; lit "png"])
                  Sample2.a_figure (lit "chart") (start [])))))
  = [lit "output/chart.html"; lit "output/chart.png"].
Proof.
  assert (H : @_save_figure Sample.env_ok
                (Sample2.with_formats [lit "svg"; lit "html"; lit "png"])
                Sample2.a_figure (lit "chart") (start [])
              = (Ok tt,
                 snd (@_save_figure Sample.env_ok
                        (Sample2.with_formats [lit "svg"; lit "html"; lit "png"])
                        Sample2.a_figure (lit "chart") (start []))))
    by (vm_compute; reflexivity).
  rewrite (@save_figure_writes_supported_formats Sample.env_ok _ _ _ _ _ H).
  vm_compute. reflexivity.
Defined.

Lemma save_figure_failure_keeps_earlier_files_witness :
  exists e st',
    @_save_figure Sample2.env_second_write_fails
      (Sample2.with_formats [lit "html"; lit "png"])
      Sample2.a_figure (lit "chart") (start [])
    = (Raise e, st')
    /\ exists done rest,
         @saved_files Sample2.env_second_write_fails
           (config (Sample2.with_formats [lit "html"; lit "png"]))
           Sample2.a_figure (lit "chart")
         = done ++ rest
         /\ rest <> []
         /\ trace st' = map (fun pc => Written (fst pc) (snd pc)) done
         /\ written_files (trace st') = done
         /\ shown_figures (trace st') = [].
Proof.
  eexists _, _. split; [vm_compute; reflexivity|].
  apply (@save_figure_failure_keeps_earlier_files
           Sample2.env_second_write_fails
           (Sample2.with_formats [lit "html"; lit "png"])
           Sample2.a_figure (lit "chart") (start []) _
           (Sample.PermissionError (lit "output/chart.png"))).
  vm_compute. reflexivity.
Defined.

Lemma failed_chart_shows_nothing_witness :
  exists e st',
    @create_error_distribution Sample.env_unwritable Sample.visualizer (start [])
    = (Raise e, st')
    /\ shown_figures (trace st') = [].
Proof.
  eexists _, _. split; [vm_compute; reflexivity|].
  apply (@failed_chart_shows_nothing Sample.env_unwritable Sample.visualizer
           (@create_error_distribution Sample.env_unwritable) (start []) _
           (Sample.PermissionError (lit "output/error_distribution.html"))).
  - left. reflexivity.
  - vm_compute. reflexivity.
Defined.


Lemma svg_load (w : @World Sample2.env_svg_only) :
  @load_config Sample2.env_svg_only (parse_args None) (start w)
  = (Ok Sample2.svg_raw, start w).
Proof. reflexivity. Qed.

Lemma svg_annotated : annotated Sample2.svg_raw = Some Sample2.svg_config.
Proof. vm_compute. reflexivity. Qed.

Lemma svg_main_returns :
  @main Sample2.env_svg_only None []
  = (0%Z, snd (@main Sample2.env_svg_only None [])).
Proof. vm_compute. reflexivity. Qed.

Lemma report_claims_saved_without_files_witness :
  written_files (trace (snd (@main Sample2.env_svg_only None []))) = []
  /\ In (NL ++ lit "Graphs have been saved in: output")
        (printed_lines (trace (snd (@main Sample2.env_svg_only None []))))
  /\ In (lit "Generated formats: svg")
        (printed_lines (trace (snd (@main Sample2.env_svg_only None [])))).
Proof.
  exact (@report_claims_saved_without_files Sample2.env_svg_only None []
           Sample2.svg_raw Sample2.svg_config _ _
           (svg_load []) svg_annotated eq_refl eq_refl svg_main_returns).
Defined.

Lemma missing_config_key_is_unexpected_error_witness :
  @main Sample2.env_no_key None []
  = (1%Z,
     {| world := [];
        trace := [Printed (lit "Unexpected error: 'log_patterns_file'")] |}).
Proof.
  exact (proj2 (@missing_config_key_is_unexpected_error Sample2.env_no_key
                  None [] [] [] (or_introl (conj eq_refl eq_refl))
                  eq_refl eq_refl)).
Defined.

Lemma failed_run_keeps_earlier_charts_witness :
  exists e st' fig,
    @create_all Sample2.env_second_write_fails Sample.visualizer (start [])
    = (Raise e, st')
    /\ shown_figures (trace st') = [fig]
    /\ @error_distribution_figure Sample2.env_second_write_fails
         Sample.visualizer
       = Ok fig.
Proof.
  assert (H : @create_all Sample2.env_second_write_fails Sample.visualizer
                (start [])
              = (Raise (Sample.PermissionError
                          (lit "output/severity_comparison.html")),
                 snd (@create_all Sample2.env_second_write_fails
                        Sample.visualizer (start []))))
    by (vm_compute; reflexivity).
  destruct (@failed_run_keeps_earlier_charts Sample2.env_second_write_fails
              Sample.visualizer _ _ _ H) as (figs & _ & _ & Hshown).
  eexists _, _, _. split; [exact H|]. split; vm_compute; reflexivity.
Defined.
